(** * The SNS platform application resource (resource_aws_sns_application.go)

  A shallow embedding of the resource handler: the two lookup tables, the
  declared schema, the four CRUD entry points and the plan-time validation,
  with the SNS client as an interface and the resource data as a record. *)

From Stdlib Require Import Ascii String.
From stdpp Require Import gmap strings list fin_maps.

Open Scope string_scope.

(** ** Go's [strings] package, as far as the handler uses it

  Go strings are byte sequences; [string] is a list of [ascii] bytes. The
  separators the handler passes (":" and "/") are single bytes, so a
  separator is an [ascii]. *)

Module GoStrings.

(** [strings.HasPrefix(s, prefix)]: does [s] begin with [prefix]? *)
Fixpoint HasPrefix (s prefix : string) {struct prefix} : bool :=
  match prefix with
  | EmptyString => true
  | String a prefix' =>
      match s with
      | EmptyString => false
      | String b s' => if Ascii.eqb a b then HasPrefix s' prefix' else false
      end
  end.

(** Does the byte [c] occur in [s]? *)
Fixpoint Contains (c : ascii) (s : string) : bool :=
  match s with
  | EmptyString => false
  | String a s' => if Ascii.eqb a c then true else Contains c s'
  end.

(** The text before and after the first [c] in [s]. *)
Fixpoint Cut (c : ascii) (s : string) : option (string * string) :=
  match s with
  | EmptyString => None
  | String a s' =>
      if Ascii.eqb a c then Some (EmptyString, s')
      else match Cut c s' with
           | Some (before, after) => Some (String a before, after)
           | None => None
           end
  end.

(** [strings.SplitN(s, sep, n)] for [n >= 0]: at most [n] substrings, the
    last one the unsplit remainder. *)
Fixpoint SplitN (n : nat) (c : ascii) (s : string) : list string :=
  match n with
  | 0 => []
  | S n' =>
      match n' with
      | 0 => [s]
      | S _ =>
          match Cut c s with
          | Some (before, after) => before :: SplitN n' c after
          | None => [s]
          end
      end
  end.

(** [strings.Split(s, sep)]: all substrings between separators; a string
    without the separator (the empty string too) gives a slice of length 1. *)
Fixpoint Split (c : ascii) (s : string) : list string :=
  match s with
  | EmptyString => [EmptyString]
  | String a s' =>
      if Ascii.eqb a c then EmptyString :: Split c s'
      else match Split c s' with
           | x :: xs => String a x :: xs
           | [] => [String a EmptyString]
           end
  end.

(** [strings.Join(l, sep)]. *)
Fixpoint Join (c : ascii) (l : list string) : string :=
  match l with
  | [] => EmptyString
  | [x] => x
  | x :: xs => x +:+ String c (Join c xs)
  end.

End GoStrings.

(** ** The AWS SDK's [arn] package *)

Module arn.
Import GoStrings.

Record ARN := mkARN {
  Partition : string;
  Service : string;
  Region : string;
  AccountID : string;
  Resource : string
}.

(** Go's zero value [ARN{}]. *)
Definition zero : ARN := mkARN "" "" "" "" "".

Definition invalidPrefix : string := "arn: invalid prefix".
Definition invalidSections : string := "arn: not enough sections".

(** Modelled from the spec: [arn.Parse] of the AWS SDK is not under src/.
    The identifier is a structured address, the literal [arn] followed by
    five colon-separated parts (partition, service, region, account,
    resource); the resource is the unsplit remainder and may hold colons.
    As in Go, the parsed value comes with an error, which is [None] on
    success; on failure the value is the zero [ARN]. *)
Definition Parse (s : string) : ARN * option string :=
  if negb (HasPrefix s "arn:") then (zero, Some invalidPrefix)
  else match SplitN 6 ":" s with
       | [_; p; sv; r; a; res] => (mkARN p sv r a res, None)
       | _ => (zero, Some invalidSections)
       end.

(** Modelled from the spec: [ARN.String] of the AWS SDK is not under src/.
    It renders the address back in the identifier format. *)
Definition ARNString (a : ARN) : string :=
  "arn:" +:+ Partition a +:+ ":" +:+ Service a +:+ ":" +:+ Region a +:+ ":"
    +:+ AccountID a +:+ ":" +:+ Resource a.

End arn.

(** ** Errors

    Go errors are values with a message. The handler makes its own at five
    [fmt.Errorf] sites and passes the client's errors on; each site is a
    constructor, and [Error] renders the message. An error of the SNS client
    is known by its message. *)

Inductive error : Type :=
| ErrRemote (msg : string)
    (* an error returned by an SNS operation, passed on as it is *)
| ErrCreating (cause : string)
    (* "Error creating SNS application: %s" *)
| ErrUpdating (cause : string)
    (* "Error updating SNS application: %s" *)
| ErrIDForm (provided : string) (cause : option string)
    (* "SNS Platform Application ID must be of the form ..." *)
| ErrPrincipalNonEmpty (platform : string)
    (* "platform_principal must be non-empty when platform = %s" *)
| ErrPrincipalRequired (platform : string).
    (* "platform_principal is required when platform = %s" *)

Definition dquote : string := String (ascii_of_nat 34) EmptyString.

Definition idForm : string :=
  "SNS Platform Application ID must be of the form " +:+
  "arn:PARTITION:sns:REGION:ACCOUNTID:app/PLATFORM/NAME, ".

(** [err.Error()]. The [%q] verb is rendered by enclosing the text in double
    quotes, which is what Go prints for text without quotes, backslashes or
    control bytes. *)
Definition Error (e : error) : string :=
  match e with
  | ErrRemote msg => msg
  | ErrCreating cause => "Error creating SNS application: " +:+ cause
  | ErrUpdating cause => "Error updating SNS application: " +:+ cause
  | ErrIDForm provided (Some cause) =>
      idForm +:+ "was provided " +:+ dquote +:+ provided +:+ dquote
        +:+ " and received error: " +:+ cause
  | ErrIDForm provided None => idForm +:+ "was provided: " +:+ provided
  | ErrPrincipalNonEmpty platform =>
      "platform_principal must be non-empty when platform = " +:+ platform
  | ErrPrincipalRequired platform =>
      "platform_principal is required when platform = " +:+ platform
  end.

(** The error taxonomy, by the site an error was made at. *)
Definition MalformedIdentifierError (e : error) : Prop :=
  match e with ErrIDForm _ _ => True | _ => False end.
Definition CreateError (e : error) : Prop :=
  match e with ErrCreating _ => True | _ => False end.
Definition UpdateError (e : error) : Prop :=
  match e with ErrUpdating _ => True | _ => False end.
Definition MissingPrincipalError (e : error) : Prop :=
  match e with ErrPrincipalRequired _ => True | _ => False end.
Definition EmptyPrincipalError (e : error) : Prop :=
  match e with ErrPrincipalNonEmpty _ => True | _ => False end.

(** ** The two lookup tables *)

Definition snsPlatformRequiresPlatformPrincipal : gmap string bool :=
  list_to_map [("APNS", true); ("APNS_SANDBOX", true)].

(** Indexing a Go [map[string]bool]: a missing key reads as [false]. *)
Definition requiresPlatformPrincipal (platform : string) : bool :=
  default false (snsPlatformRequiresPlatformPrincipal !! platform).

(** The entries of [SNSPlatformAppAttributeMap], in the order of the source. *)
Definition SNSPlatformAppAttributeEntries : list (string * string) :=
  [ ("event_delivery_failure_topic_arn", "EventDeliveryFailure");
    ("event_endpoint_created_topic_arn", "EventEndpointCreated");
    ("event_endpoint_deleted_topic_arn", "EventEndpointDeleted");
    ("event_endpoint_updated_topic_arn", "EventEndpointUpdated");
    ("failure_feedback_role_arn", "FailureFeedbackRoleArn");
    ("platform_principal", "PlatformPrincipal");
    ("success_feedback_role_arn", "SuccessFeedbackRoleArn");
    ("success_feedback_sample_rate", "SuccessFeedbackSampleRate") ].

Definition SNSPlatformAppAttributeMap : gmap string string :=
  list_to_map SNSPlatformAppAttributeEntries.

(** ** The declared schema *)

Inductive ValueType := TypeString.
Inductive StateFunction := hashSum.

Record Schema := mkSchema {
  Type_ : ValueType;
  Required : bool;
  Optional : bool;
  Computed : bool;
  ForceNew : bool;
  StateFunc : option StateFunction
}.

Definition requiredForceNew : Schema :=
  mkSchema TypeString true false false true None.
Definition optionalString : Schema :=
  mkSchema TypeString false true false false None.

(** The fields of [resourceAwsSnsApplication().Schema], in the order of the
    source. *)
Definition resourceSchemaEntries : list (string * Schema) :=
  [ ("name", requiredForceNew);
    ("platform", requiredForceNew);
    ("platform_credential", mkSchema TypeString true false false false (Some hashSum));
    ("arn", mkSchema TypeString false false true false None);
    ("event_delivery_failure_topic_arn", optionalString);
    ("event_endpoint_created_topic_arn", optionalString);
    ("event_endpoint_deleted_topic_arn", optionalString);
    ("event_endpoint_updated_topic_arn", optionalString);
    ("failure_feedback_role_arn", optionalString);
    ("platform_principal", mkSchema TypeString false true false false (Some hashSum));
    ("success_feedback_role_arn", optionalString);
    ("success_feedback_sample_rate", optionalString) ].

Definition resourceSchema : gmap string Schema :=
  list_to_map resourceSchemaEntries.

Definition resourceSchemaKeys : list string := resourceSchemaEntries.*1.

(** ** The resource data the engine hands to a handler *)

Module ResourceData.

(** Modelled from the spec: [schema.ResourceData] and its accessors belong to
    the engine and are not under src/. The engine supplies the desired
    configuration and the previously persisted one, and expects a state
    snapshot back: [config] is what [Get], [GetOk] and the new side of
    [GetChange] read, [prior] is the old side of [GetChange], [state] is the
    local state [Set] writes, and [id] is the resource's identity. All fields
    are strings; a field that is not set reads as Go's zero value, the empty
    string. *)
Record t := mk {
  id : string;
  config : gmap string string;
  prior : gmap string string;
  state : gmap string string
}.

(** [d.Id()] *)
Definition Id (d : t) : string := id d.

(** [d.SetId(v)] *)
Definition SetId (v : string) (d : t) : t :=
  mk v (config d) (prior d) (state d).

(** [d.Get(key)] *)
Definition Get (d : t) (key : string) : string :=
  default "" (config d !! key).

(** [d.GetOk(key)]: the value, and whether the field has been set to a
    value other than the zero value: a field set to the empty string is not
    reported as set. *)
Definition GetOk (d : t) (key : string) : string * bool :=
  match config d !! key with
  | Some v => (v, negb (String.eqb v ""))
  | None => ("", false)
  end.

(** [d.GetChange(key)]: the old and the new value. *)
Definition GetChange (d : t) (key : string) : string * string :=
  (default "" (prior d !! key), default "" (config d !! key)).

(** [d.HasChange(key)]: do the old and the new value differ? *)
Definition HasChange (d : t) (key : string) : bool :=
  let '(o, n) := GetChange d key in negb (String.eqb o n).

(** [d.Set(key, value)]; the handler ignores the error it returns. *)
Definition Set_ (key value : string) (d : t) : t :=
  mk (id d) (config d) (prior d) (<[key := value]> (state d)).

End ResourceData.

Module ResourceDiff.

(** Modelled from the spec: [schema.ResourceDiff], the planned configuration
    the engine validates before Create or Update, is not under src/. The
    validation only calls [Get] and [GetOk] on it, so a diff is known by what
    these two answer for a key: the value, and for [GetOk] also whether the
    field is present. *)
Record t := mk {
  Get : string → string;
  GetOk : string → string * bool
}.

(** The diff the engine makes of a planned configuration. As on the resource
    data, [GetOk] reports a field as present only when its value is not the
    zero value: a field configured as the empty string is not reported. *)
Definition ofConfig (config : gmap string string) : t :=
  mk (λ key, default "" (config !! key))
     (λ key, match config !! key with
             | Some v => (v, negb (String.eqb v ""))
             | None => ("", false)
             end).

End ResourceDiff.

(** ** The SNS client *)

(** A request the handler sends. Attribute maps are [map[string]*string] in
    Go; an entry whose pointer is nil reads as an absent key. *)
Inductive request : Type :=
| CreatePlatformApplicationInput (Name Platform : string) (Attributes : gmap string string)
| SetPlatformApplicationAttributesInput (PlatformApplicationArn : string)
    (Attributes : gmap string string)
| GetPlatformApplicationAttributesInput (PlatformApplicationArn : string)
| DeletePlatformApplicationInput (PlatformApplicationArn : string).

(** Modelled from the spec: the SNS client of the AWS SDK is not under src/.
    The remote service is an external collaborator with four operations over
    string-keyed attribute maps and one identifier string; [conn] is whatever
    the service remembers between calls. An operation answers with the
    message of an error or with its output. *)
Class SNSAPI (conn : Type) := {
  CreatePlatformApplication :
    string -> string -> gmap string string -> conn -> (string + string) * conn;
  SetPlatformApplicationAttributes :
    string -> gmap string string -> conn -> option string * conn;
  GetPlatformApplicationAttributes :
    string -> conn -> (string + gmap string string) * conn;
  DeletePlatformApplication :
    string -> conn -> option string * conn
}.

(** The AWS client a handler gets as [meta]: the connection, and next to it the requests sent
    over it so far, oldest first. *)
Record AWSClient (conn : Type) := mkAWSClient {
  snsconn : conn;
  sent : list request
}.
Arguments mkAWSClient {conn} _ _.
Arguments snsconn {conn} _.
Arguments sent {conn} _.

(** What a handler leaves behind: the error it returns ([None] is Go's nil),
    the resource data and the client. *)
Record outcome (conn : Type) := mkOutcome {
  err : option error;
  data : ResourceData.t;
  client : AWSClient conn
}.
Arguments mkOutcome {conn} _ _ _.
Arguments err {conn} _.
Arguments data {conn} _.
Arguments client {conn} _.

Section Handlers.
Context {conn : Type} `{!SNSAPI conn}.
Import ResourceData.

Definition send (r : request) (meta : AWSClient conn) (c : conn) : AWSClient conn :=
  mkAWSClient c (sent meta ++ [r]).

(** The attribute map of the creation request. *)
Definition createAttributes (d : t) : gmap string string :=
  let attributes := <["PlatformCredential" := Get d "platform_credential"]> ∅ in
  match GetOk d "platform_principal" with
  | (v, true) => <["PlatformPrincipal" := v]> attributes
  | (_, false) => attributes
  end.

(** One turn of the loop of Update over the schema's keys. *)
Definition changedAttribute (d : t) (attributes : gmap string string) (k : string)
  : gmap string string :=
  match SNSPlatformAppAttributeMap !! k with
  | Some attrKey =>
      if HasChange d k
      then let '(_, n) := GetChange d k in <[attrKey := n]> attributes
      else attributes
  | None => attributes
  end.

(** The loop of Update, over the keys in the order [keys]. *)
Definition changedAttributes (keys : list string) (d : t) : gmap string string :=
  foldl (changedAttribute d) ∅ keys.

(** The credential and the principal, sent together when the credential
    changed. *)
Definition credentialAttributes (d : t) (attributes : gmap string string)
  : gmap string string :=
  if HasChange d "platform_credential" then
    let attributes := <["PlatformCredential" := Get d "platform_credential"]> attributes in
    match GetOk d "platform_principal" with
    | (v, true) => <["PlatformPrincipal" := v]> attributes
    | (_, false) => attributes
    end
  else attributes.

(** The attribute map of the update request, for a given order of the loop. *)
Definition updateAttributesIn (keys : list string) (d : t) : gmap string string :=
  credentialAttributes d (changedAttributes keys d).

Definition updateAttributes (d : t) : gmap string string :=
  updateAttributesIn resourceSchemaKeys d.

(** One turn of the loop of Read over the attribute map: [iKey] is the local
    key, [oKey] the remote one. *)
Definition copyAttribute (attrmap : gmap string string) (d : t) (entry : string * string)
  : t :=
  let '(iKey, oKey) := entry in
  match attrmap !! oKey with
  | Some value =>
      match resourceSchema !! iKey with
      | Some _ => Set_ iKey value d
      | None => d
      end
  | None => d
  end.

(** The loop of Read, over the entries in the order [entries]; it is entered
    only when the fetched map is not empty. *)
Definition copyAttributesIn (entries : list (string * string))
  (attrmap : gmap string string) (d : t) : t :=
  if Nat.ltb 0 (size attrmap) then foldl (copyAttribute attrmap) d entries else d.

Definition copyAttributes (attrmap : gmap string string) (d : t) : t :=
  copyAttributesIn SNSPlatformAppAttributeEntries attrmap d.

Definition resourceAwsSnsApplicationRead (d : t) (meta : AWSClient conn) : outcome conn :=
  let '(platformApplicationArn, err) := arn.Parse (Id d) in
  match err with
  | Some e =>
      mkOutcome (Some (ErrIDForm (arn.ARNString platformApplicationArn) (Some e))) d meta
  | None =>
      let platformApplicationArnResourceParts :=
        GoStrings.Split "/" (arn.Resource platformApplicationArn) in
      if negb (Nat.eqb (length platformApplicationArnResourceParts) 3)
         || negb (String.eqb (nth 0 platformApplicationArnResourceParts "") "app")
      then mkOutcome (Some (ErrIDForm (arn.ARNString platformApplicationArn) None)) d meta
      else
        let d := Set_ "arn" (arn.ARNString platformApplicationArn) d in
        let d := Set_ "name" (nth 2 platformApplicationArnResourceParts "") d in
        let d := Set_ "platform" (nth 1 platformApplicationArnResourceParts "") d in
        let req := arn.ARNString platformApplicationArn in
        let '(attributeOutput, c) := GetPlatformApplicationAttributes req (snsconn meta) in
        let meta := send (GetPlatformApplicationAttributesInput req) meta c in
        match attributeOutput with
        | inl e => mkOutcome (Some (ErrRemote e)) d meta
        | inr attrmap => mkOutcome None (copyAttributes attrmap d) meta
        end
  end.

Definition resourceAwsSnsApplicationUpdate (d : t) (meta : AWSClient conn) : outcome conn :=
  let attributes := updateAttributes d in
  let '(err, c) := SetPlatformApplicationAttributes (Id d) attributes (snsconn meta) in
  let meta := send (SetPlatformApplicationAttributesInput (Id d) attributes) meta c in
  match err with
  | Some e => mkOutcome (Some (ErrUpdating e)) d meta
  | None => resourceAwsSnsApplicationRead d meta
  end.

Definition resourceAwsSnsApplicationCreate (d : t) (meta : AWSClient conn) : outcome conn :=
  let attributes := createAttributes d in
  let name := Get d "name" in
  let platform := Get d "platform" in
  let '(output, c) := CreatePlatformApplication name platform attributes (snsconn meta) in
  let meta := send (CreatePlatformApplicationInput name platform attributes) meta c in
  match output with
  | inl e => mkOutcome (Some (ErrCreating e)) d meta
  | inr PlatformApplicationArn =>
      resourceAwsSnsApplicationUpdate (SetId PlatformApplicationArn d) meta
  end.

Definition resourceAwsSnsApplicationDelete (d : t) (meta : AWSClient conn) : outcome conn :=
  let '(err, c) := DeletePlatformApplication (Id d) (snsconn meta) in
  let meta := send (DeletePlatformApplicationInput (Id d)) meta c in
  match err with
  | Some e => mkOutcome (Some (ErrRemote e)) d meta
  | None => mkOutcome None d meta
  end.

End Handlers.

Definition validateAwsSnsPlatformApplication (d : ResourceDiff.t) : option error :=
  let platform := ResourceDiff.Get d "platform" in
  if requiresPlatformPrincipal platform then
    match ResourceDiff.GetOk d "platform_principal" with
    | (value, true) =>
        if Nat.eqb (String.length value) 0 then Some (ErrPrincipalNonEmpty platform)
        else None
    | (_, false) => Some (ErrPrincipalRequired platform)
    end
  else None.

(** The local state once the fields derived from the identifier are set. *)
Definition identified (d : ResourceData.t) (a : arn.ARN) (pl nm : string)
  : ResourceData.t :=
  ResourceData.Set_ "platform" pl
    (ResourceData.Set_ "name" nm (ResourceData.Set_ "arn" (arn.ARNString a) d)).

(** The identifier format:
    [arn:PARTITION:sns:REGION:ACCOUNTID:app/PLATFORM/NAME]. *)
Definition applicationArn (PARTITION REGION ACCOUNTID PLATFORM NAME : string) : string :=
  "arn:" +:+ PARTITION +:+ ":sns:" +:+ REGION +:+ ":" +:+ ACCOUNTID
    +:+ ":app/" +:+ PLATFORM +:+ "/" +:+ NAME.

(** ** A test double of the service

    It holds the applications by identifier, mints identifiers in one
    account, and answers NotFound for an identifier it does not hold. *)

Module FakeSNS.

Definition notFound : string := "NotFound: PlatformApplication does not exist".
Definition invalidName : string := "InvalidParameter: Invalid parameter: Name".

Definition create (name platform : string) (attributes : gmap string string)
  (c : gmap string (gmap string string))
  : (string + string) * gmap string (gmap string string) :=
  if String.eqb name "" then (inl invalidName, c)
  else
    let a := applicationArn "aws" "us-east-1" "123456789012" platform name in
    (inr a, <[a := attributes]> c).

Definition set (a : string) (attributes : gmap string string)
  (c : gmap string (gmap string string))
  : option string * gmap string (gmap string string) :=
  match c !! a with
  | Some old => (None, <[a := attributes ∪ old]> c)
  | None => (Some notFound, c)
  end.

Definition get (a : string) (c : gmap string (gmap string string))
  : (string + gmap string string) * gmap string (gmap string string) :=
  match c !! a with
  | Some attributes => (inr attributes, c)
  | None => (inl notFound, c)
  end.

Definition remove (a : string) (c : gmap string (gmap string string))
  : option string * gmap string (gmap string string) :=
  match c !! a with
  | Some _ => (None, delete a c)
  | None => (Some notFound, c)
  end.

#[global] Instance api : SNSAPI (gmap string (gmap string string)) := {
  CreatePlatformApplication := create;
  SetPlatformApplicationAttributes := set;
  GetPlatformApplicationAttributes := get;
  DeletePlatformApplication := remove
}.

(** A client of a service that holds nothing yet. *)
Definition fresh : AWSClient (gmap string (gmap string string)) := mkAWSClient ∅ [].

(** The identifier of scenario B, and a client of a service that holds this
    application with one mapped attribute and two that have no local field. *)
Definition gcmArn : string := "arn:aws:sns:us-east-1:123456789012:app/GCM/app1".

Definition gcmAttributes : gmap string string :=
  list_to_map [("Enabled", "true"); ("SuccessFeedbackSampleRate", "50");
               ("AppleCertificateExpirationDate", "2030-01-01T00:00:00Z")].

Definition holding : AWSClient (gmap string (gmap string string)) :=
  mkAWSClient {[ gcmArn := gcmAttributes ]} [].

End FakeSNS.

(** ** The state function of the secret fields *)

Module Hash.

(** The sixteen digits of the [%x] verb. *)
Definition hexDigit (n : N) : ascii :=
  match n with
  | 0%N => "0" | 1%N => "1" | 2%N => "2" | 3%N => "3"
  | 4%N => "4" | 5%N => "5" | 6%N => "6" | 7%N => "7"
  | 8%N => "8" | 9%N => "9" | 10%N => "a" | 11%N => "b"
  | 12%N => "c" | 13%N => "d" | 14%N => "e" | _ => "f"
  end%char.

(** [%x] of one byte: two digits, the high one first. *)
Definition hexByte (b : ascii) : string :=
  String (hexDigit (N_of_ascii b / 16)) (String (hexDigit (N_of_ascii b mod 16)) EmptyString).

(** [fmt.Sprintf("%x", bytes)] of a byte array: base 16, lower case, two
    characters per byte. *)
Fixpoint hex (bytes : list ascii) : string :=
  match bytes with
  | [] => EmptyString
  | b :: bytes' => hexByte b +:+ hex bytes'
  end.

(** [hashSum(contents)]. The digest function [sha256.Sum256] belongs to Go's
    standard library and is a parameter here; it takes the bytes of the
    contents, which are the string itself. *)
Definition hashSum (Sum256 : string → list ascii) (contents : string) : string :=
  hex (Sum256 contents).

(** Is [c] one of [0-9a-f]? *)
Definition isLowerHex (c : ascii) : bool :=
  let n := N_of_ascii c in
  ((48 <=? n) && (n <=? 57) || (97 <=? n) && (n <=? 102))%N.

(** Does [s] hold digits of [0-9a-f] only? *)
Fixpoint allLowerHex (s : string) : bool :=
  match s with
  | EmptyString => true
  | String c s' => isLowerHex c && allLowerHex s'
  end.

(** Reading the digits back: the value of one digit, the byte of two, and
    the bytes of a text of digit pairs. *)
Definition unhexDigit (c : ascii) : N :=
  let n := N_of_ascii c in
  (if n <? 58 then n - 48 else n - 87)%N.

Definition unhexByte (hi lo : ascii) : ascii :=
  ascii_of_N (16 * unhexDigit hi + unhexDigit lo).

Fixpoint unhex (s : string) : list ascii :=
  match s with
  | String hi (String lo rest) => unhexByte hi lo :: unhex rest
  | _ => []
  end.

(** A stand-in for the digest, for running examples: thirty-two bytes, the
    first of which is the first byte of the contents. *)
Definition firstByteDigest (contents : string) : list ascii :=
  match contents with
  | EmptyString => repeat zero 32
  | String a _ => a :: repeat zero 31
  end.

End Hash.

(** [CustomizeDiff] of the resource: the plan-time check. *)
Definition CustomizeDiff (diff : ResourceDiff.t) : option error :=
  validateAwsSnsPlatformApplication diff.

(** ** Scenarios

    Concrete resource data for the end-to-end scenarios. *)

Module Scenario.

(** An imported resource: only its identifier is known. *)
Definition imported : ResourceData.t := ResourceData.mk FakeSNS.gcmArn ∅ ∅ ∅.

(** Scenario D: the resource path does not begin with [app]. *)
Definition invalid : ResourceData.t :=
  ResourceData.mk "arn:aws:sns:us-east-1:123456789012:invalid/GCM/app1" ∅ ∅ ∅.

(** An identifier with too few sections. *)
Definition unparsed : ResourceData.t := ResourceData.mk "arn:aws:sns" ∅ ∅ ∅.

(** Scenario B: a GCM application with a credential and no principal. *)
Definition gcmConfig : gmap string string :=
  list_to_map [("name", "app1"); ("platform", "GCM"); ("platform_credential", "cred")].

Definition gcm : ResourceData.t := ResourceData.mk "" gcmConfig ∅ ∅.

(** Scenario C: only the sample rate changes, from 50 to 100. *)
Definition rateChange : ResourceData.t :=
  ResourceData.mk FakeSNS.gcmArn
    (<["success_feedback_sample_rate" := "100"]> gcmConfig)
    (<["success_feedback_sample_rate" := "50"]> gcmConfig)
    ∅.

(** The credential changes while an APNS principal stays as it is. *)
Definition apnsConfig (credential : string) : gmap string string :=
  list_to_map [("name", "app1"); ("platform", "APNS");
               ("platform_credential", credential); ("platform_principal", "key")].

Definition rotation : ResourceData.t :=
  ResourceData.mk "arn:aws:sns:us-east-1:123456789012:app/APNS/app1"
    (apnsConfig "new") (apnsConfig "old") ∅.

(** Scenario A: an APNS application without a principal; and with an empty
    one, and with a proper one. *)
Definition apnsPlan : gmap string string :=
  list_to_map [("name", "app1"); ("platform", "APNS"); ("platform_credential", "cred")].

Definition apnsNoPrincipal : ResourceDiff.t := ResourceDiff.ofConfig apnsPlan.

Definition apnsEmptyPrincipal : ResourceDiff.t :=
  ResourceDiff.ofConfig (<["platform_principal" := ""]> apnsPlan).

Definition apnsWithPrincipal : ResourceDiff.t :=
  ResourceDiff.ofConfig (<["platform_principal" := "key"]> apnsPlan).

Definition gcmNoPrincipal : ResourceDiff.t := ResourceDiff.ofConfig gcmConfig.

(** Nothing changed since the last apply. *)
Definition unchanged : ResourceData.t :=
  ResourceData.mk FakeSNS.gcmArn gcmConfig gcmConfig ∅.

(** A new APNS application with a principal and a failure topic. *)
Definition apnsNewConfig : gmap string string :=
  <["event_delivery_failure_topic_arn" := "arn:aws:sns:us-east-1:123456789012:failures"]>
    (apnsConfig "cred").

Definition apnsNew : ResourceData.t := ResourceData.mk "" apnsNewConfig ∅ ∅.

(** The sample rate is taken out of the configuration. *)
Definition rateRemoved : ResourceData.t :=
  ResourceData.mk FakeSNS.gcmArn gcmConfig
    (<["success_feedback_sample_rate" := "50"]> gcmConfig) ∅.

End Scenario.

(* ===================================================================== *)
(** * Properties *)

(** ** Strings *)

Section StringFacts.
Import GoStrings.
Implicit Types (c a : ascii) (s p q : string).

Lemma append_String a s q : String a s +:+ q = String a (s +:+ q).
Proof. reflexivity. Qed.

Lemma Cut_append c p q :
  Contains c p = false → Cut c (p +:+ String c q) = Some (p, q).
Proof.
  induction p as [|a p IH]; simpl; intros Hp.
  - by rewrite Ascii.eqb_refl.
  - destruct (Ascii.eqb a c); [done|]. by rewrite IH.
Qed.

Lemma Cut_absent c s : Contains c s = false → Cut c s = None.
Proof.
  induction s as [|a s IH]; simpl; [done|].
  destruct (Ascii.eqb a c); [done|]. intros Hs. by rewrite IH.
Qed.

Lemma Cut_Some c s p q : Cut c s = Some (p, q) → s = p +:+ String c q.
Proof.
  revert p q. induction s as [|a s IH]; simpl; intros p q; [done|].
  destruct (Ascii.eqb_spec a c) as [->|Hne].
  - by intros [= <- <-].
  - destruct (Cut c s) as [[p' q']|] eqn:E; [|done].
    intros [= <- <-]. rewrite append_String. f_equal. by apply IH.
Qed.

Lemma SplitN_append n c p q :
  Contains c p = false →
  SplitN (S (S n)) c (p +:+ String c q) = p :: SplitN (S n) c q.
Proof. intros Hp. simpl. by rewrite Cut_append. Qed.

Lemma SplitN_Join n c s : Join c (SplitN (S n) c s) = s.
Proof.
  revert s. induction n as [|n IH]; intros s; [done|].
  change (SplitN (S (S n)) c s)
    with (match Cut c s with
          | Some (before, after) => before :: SplitN (S n) c after
          | None => [s]
          end).
  destruct (Cut c s) as [[p q]|] eqn:E; [|done].
  apply Cut_Some in E as ->.
  specialize (IH q).
  destruct (SplitN (S n) c q) as [|x xs] eqn:Eq.
  - destruct n; simpl in Eq; [done|]. by destruct (Cut c q) as [[??]|].
  - change (Join c (p :: x :: xs)) with (p +:+ String c (Join c (x :: xs))).
    by rewrite IH.
Qed.

Lemma Split_nonempty c s : Split c s ≠ [].
Proof.
  destruct s as [|a s]; simpl; [done|].
  destruct (Ascii.eqb a c); [done|]. by destruct (Split c s).
Qed.

Lemma Split_absent c s : Contains c s = false → Split c s = [s].
Proof.
  induction s as [|a s IH]; simpl; [done|].
  destruct (Ascii.eqb a c); [done|]. intros Hs. by rewrite IH.
Qed.

Lemma Split_append c p q :
  Contains c p = false → Split c (p +:+ String c q) = p :: Split c q.
Proof.
  induction p as [|a p IH]; simpl; intros Hp.
  - by rewrite Ascii.eqb_refl.
  - destruct (Ascii.eqb a c); [done|]. by rewrite IH.
Qed.

End StringFacts.

(** ** Identifiers *)

Section ArnFacts.
Import GoStrings arn.

Lemma append_empty (q : string) : "" +:+ q = q.
Proof. reflexivity. Qed.

Lemma SplitN_arn (n : nat) (x : string) :
  SplitN (S (S n)) ":" (String "a" (String "r" (String "n" (String ":" x))))
  = "arn" :: SplitN (S n) ":" x.
Proof. exact (SplitN_append n ":" "arn" x eq_refl). Qed.

Lemma Parse_sections (p sv r a res : string) :
  Contains ":" p = false → Contains ":" sv = false →
  Contains ":" r = false → Contains ":" a = false →
  Parse ("arn:" +:+ p +:+ ":" +:+ sv +:+ ":" +:+ r +:+ ":" +:+ a +:+ ":" +:+ res)
  = (mkARN p sv r a res, None).
Proof.
  intros Hp Hsv Hr Ha. unfold Parse.
  rewrite !append_String, !append_empty.
  change (HasPrefix _ "arn:") with true; cbn [negb].
  rewrite (SplitN_arn 4).
  rewrite (SplitN_append 3 ":" p) by done.
  rewrite (SplitN_append 2 ":" sv) by done.
  rewrite (SplitN_append 1 ":" r) by done.
  rewrite (SplitN_append 0 ":" a) by done.
  reflexivity.
Qed.

Lemma Parse_applicationArn (P R A PLATFORM NAME : string) :
  Contains ":" P = false → Contains ":" R = false → Contains ":" A = false →
  Parse (applicationArn P R A PLATFORM NAME)
  = (mkARN P "sns" R A ("app/" +:+ PLATFORM +:+ "/" +:+ NAME), None).
Proof.
  intros HP HR HA. rewrite <- (Parse_sections P "sns" R A) by done.
  unfold applicationArn. by rewrite !append_String, !append_empty.
Qed.

Lemma Parse_failure_zero (s e : string) (a : ARN) : Parse s = (a, Some e) → a = zero.
Proof.
  unfold Parse. destruct (negb _); [by intros [= <- _]|].
  destruct (SplitN 6 ":" s) as [|? [|? [|? [|? [|? [|? [|]]]]]]]; by intros [= <-].
Qed.

Lemma HasPrefix_arn (s : string) :
  HasPrefix s "arn:" = true →
  ∃ x, s = String "a" (String "r" (String "n" (String ":" x))).
Proof.
  destruct s as [|c1 [|c2 [|c3 [|c4 x]]]]; cbn [HasPrefix];
    repeat match goal with
           | |- (if Ascii.eqb ?u ?v then _ else _) = true → _ =>
               destruct (Ascii.eqb_spec u v) as [<-|]; cbn [HasPrefix]
           end; try done.
  by exists x.
Qed.

Lemma Parse_String (s : string) (a : ARN) : Parse s = (a, None) → ARNString a = s.
Proof.
  unfold Parse.
  destruct (HasPrefix s "arn:") eqn:Hpre; [|done]. cbn [negb].
  apply HasPrefix_arn in Hpre as [x ->].
  pose proof (SplitN_Join 5 ":" (String "a" (String "r" (String "n" (String ":" x))))) as HJ.
  rewrite (SplitN_arn 4) in *.
  destruct (SplitN 5 ":" x) as [|p [|sv [|r [|ac [|res [|]]]]]] eqn:E; try done.
  intros [= <-]. unfold ARNString; cbn [Partition Service Region AccountID Resource].
  rewrite <- HJ. cbn [Join].
  by rewrite !append_String, !append_empty.
Qed.

End ArnFacts.

Example Split_resource :
  GoStrings.Split "/" "app/GCM/app1" = ["app"; "GCM"; "app1"].
Proof. reflexivity. Qed.

Example Split_empty : GoStrings.Split "/" "" = [""].
Proof. reflexivity. Qed.

Example Split_trailing : GoStrings.Split "/" "app/GCM/" = ["app"; "GCM"; ""].
Proof. reflexivity. Qed.

Example Parse_gcm :
  arn.Parse FakeSNS.gcmArn
  = (arn.mkARN "aws" "sns" "us-east-1" "123456789012" "app/GCM/app1", None).
Proof. reflexivity. Qed.

(** The resource keeps its colons: only the first five are separators. *)
Example Parse_resource_colon :
  arn.Parse "arn:aws:sns:us-east-1:123456789012:app/GCM/a:b"
  = (arn.mkARN "aws" "sns" "us-east-1" "123456789012" "app/GCM/a:b", None).
Proof. reflexivity. Qed.

Example Parse_no_prefix :
  arn.Parse "aws:sns:us-east-1:123456789012:app/GCM/app1:x"
  = (arn.zero, Some arn.invalidPrefix).
Proof. reflexivity. Qed.

(** ** The tables *)

Lemma requiresPlatformPrincipal_true (platform : string) :
  requiresPlatformPrincipal platform = true ↔
  platform = "APNS" ∨ platform = "APNS_SANDBOX".
Proof.
  unfold requiresPlatformPrincipal, snsPlatformRequiresPlatformPrincipal.
  cbn [list_to_map foldr uncurry fst snd]. split.
  - destruct (decide (platform = "APNS")) as [->|H1]; [by left|].
    destruct (decide (platform = "APNS_SANDBOX")) as [->|H2]; [by right|].
    by rewrite !lookup_insert_ne, lookup_empty by done.
  - by intros [-> | ->].
Qed.

Lemma AttributeEntries_keys_NoDup : NoDup SNSPlatformAppAttributeEntries.*1.
Proof. apply (bool_decide_unpack _). by vm_compute. Qed.

Lemma AttributeEntries_names_NoDup : NoDup SNSPlatformAppAttributeEntries.*2.
Proof. apply (bool_decide_unpack _). by vm_compute. Qed.

Lemma AttributeMap_lookup (k r : string) :
  SNSPlatformAppAttributeMap !! k = Some r ↔ (k, r) ∈ SNSPlatformAppAttributeEntries.
Proof.
  unfold SNSPlatformAppAttributeMap. split.
  - apply elem_of_list_to_map_2.
  - apply elem_of_list_to_map_1, AttributeEntries_keys_NoDup.
Qed.

Lemma AttributeMap_inj (k1 k2 r : string) :
  SNSPlatformAppAttributeMap !! k1 = Some r →
  SNSPlatformAppAttributeMap !! k2 = Some r → k1 = k2.
Proof.
  rewrite !AttributeMap_lookup. unfold SNSPlatformAppAttributeEntries.
  rewrite !elem_of_cons, !elem_of_nil. intros H1 H2.
  repeat destruct H1 as [H1|H1]; try done;
    repeat destruct H2 as [H2|H2]; try done; congruence.
Qed.

Lemma AttributeMap_declared (k r : string) :
  SNSPlatformAppAttributeMap !! k = Some r → is_Some (resourceSchema !! k).
Proof.
  rewrite AttributeMap_lookup. unfold SNSPlatformAppAttributeEntries.
  rewrite !elem_of_cons, !elem_of_nil.
  intros H; repeat destruct H as [H|H]; try done; injection H as -> ->;
    apply (bool_decide_unpack _); by vm_compute.
Qed.

Lemma AttributeMap_not_identity (k : string) :
  k ∈ ["arn"; "name"; "platform"] → SNSPlatformAppAttributeMap !! k = None.
Proof.
  rewrite !elem_of_cons, !elem_of_nil.
  intros H; repeat destruct H as [H|H]; try done; subst; by vm_compute.
Qed.

(** ** Read *)

Section ReadFacts.
Context {conn : Type} `{!SNSAPI conn}.
Import ResourceData.
Implicit Types (d : ResourceData.t) (meta : AWSClient conn)
  (attrmap : gmap string string) (entries : list (string * string)).

(** What the loop of Read leaves under the key [k]: the fetched value when
    [k] is mapped to a remote name that was fetched and [k] is declared, the
    value from before otherwise. *)
Lemma copy_fold_state entries attrmap d (k : string) :
  NoDup entries.*1 →
  state (foldl (copyAttribute attrmap) d entries) !! k =
  match (list_to_map entries : gmap string string) !! k with
  | Some oKey =>
      match attrmap !! oKey, resourceSchema !! k with
      | Some v, Some _ => Some v
      | _, _ => state d !! k
      end
  | None => state d !! k
  end.
Proof.
  revert d. induction entries as [|[i o] entries IH]; intros d Hnd; [done|].
  apply NoDup_cons in Hnd as [Hi Hnd]. cbn [foldl list_to_map foldr uncurry fst snd].
  rewrite IH by done. destruct (decide (k = i)) as [->|Hne].
  - rewrite lookup_insert_eq.
    rewrite (not_elem_of_list_to_map_1 (M := gmap string) entries i) by done.
    unfold copyAttribute.
    destruct (attrmap !! o); [|done]. destruct (resourceSchema !! i); [|done].
    cbn [Set_ state]. by rewrite lookup_insert_eq.
  - rewrite lookup_insert_ne by done.
    assert (state (copyAttribute attrmap d (i, o)) !! k = state d !! k) as ->; [|done].
    unfold copyAttribute.
    destruct (attrmap !! o); [|done]. destruct (resourceSchema !! i); [|done].
    cbn [Set_ state]. by rewrite lookup_insert_ne.
Qed.

Lemma copy_fold_rest entries attrmap d :
  let d' := foldl (copyAttribute attrmap) d entries in
  id d' = id d ∧ config d' = config d ∧ prior d' = prior d.
Proof.
  revert d. induction entries as [|[i o] entries IH]; intros d; [done|].
  cbn [foldl]. destruct (IH (copyAttribute attrmap d (i, o))) as (-> & -> & ->).
  unfold copyAttribute.
  destruct (attrmap !! o); [|done]. by destruct (resourceSchema !! i).
Qed.

Lemma copyAttributes_state attrmap d (k : string) :
  state (copyAttributes attrmap d) !! k =
  match SNSPlatformAppAttributeMap !! k with
  | Some oKey =>
      match attrmap !! oKey with
      | Some v => Some v
      | None => state d !! k
      end
  | None => state d !! k
  end.
Proof.
  unfold copyAttributes, copyAttributesIn.
  destruct (Nat.ltb_spec 0 (size attrmap)) as [Hpos|Hzero].
  - rewrite copy_fold_state by apply AttributeEntries_keys_NoDup.
    fold SNSPlatformAppAttributeMap.
    destruct (SNSPlatformAppAttributeMap !! k) as [oKey|] eqn:Hk; [|done].
    destruct (AttributeMap_declared k oKey Hk) as [sch ->].
    by destruct (attrmap !! oKey).
  - assert (attrmap = ∅) as -> by (apply map_size_empty_iff; lia).
    destruct (SNSPlatformAppAttributeMap !! k); by rewrite ?lookup_empty.
Qed.

Lemma copyAttributes_rest attrmap d :
  id (copyAttributes attrmap d) = id d
  ∧ config (copyAttributes attrmap d) = config d
  ∧ prior (copyAttributes attrmap d) = prior d.
Proof.
  unfold copyAttributes, copyAttributesIn.
  destruct (Nat.ltb 0 (size attrmap)); [apply copy_fold_rest|done].
Qed.

(** The order in which Go walks the attribute map does not matter. *)
Lemma copyAttributesIn_order entries attrmap d :
  entries ≡ₚ SNSPlatformAppAttributeEntries →
  copyAttributesIn entries attrmap d = copyAttributes attrmap d.
Proof.
  intros Hperm. unfold copyAttributes, copyAttributesIn.
  destruct (Nat.ltb 0 (size attrmap)); [|done].
  pose proof AttributeEntries_keys_NoDup as Hnd.
  assert (NoDup entries.*1) as Hnd' by by rewrite Hperm.
  pose proof (copy_fold_rest entries attrmap d) as (H1 & H2 & H3).
  pose proof (copy_fold_rest SNSPlatformAppAttributeEntries attrmap d) as (H1' & H2' & H3').
  cbn zeta in *.
  assert (state (foldl (copyAttribute attrmap) d entries)
          = state (foldl (copyAttribute attrmap) d SNSPlatformAppAttributeEntries)) as H4.
  { apply map_eq; intros k. rewrite !copy_fold_state by done.
    by rewrite (list_to_map_proper (M := gmap string) _ _ Hnd' Hperm). }
  destruct (foldl _ d entries), (foldl _ d SNSPlatformAppAttributeEntries).
  cbn in *. congruence.
Qed.

(** Read on an identifier that does not parse. *)
Lemma Read_unparsed d meta (a : arn.ARN) (e : string) :
  arn.Parse (Id d) = (a, Some e) →
  resourceAwsSnsApplicationRead d meta
  = mkOutcome (Some (ErrIDForm "arn:::::" (Some e))) d meta.
Proof.
  intros HP. unfold resourceAwsSnsApplicationRead. rewrite HP.
  by rewrite (Parse_failure_zero _ _ _ HP).
Qed.

(** Read on an identifier whose resource path is not [app/PLATFORM/NAME]. *)
Lemma Read_bad_resource d meta (a : arn.ARN) :
  arn.Parse (Id d) = (a, None) →
  (¬ ∃ pl nm, GoStrings.Split "/" (arn.Resource a) = ["app"; pl; nm]) →
  resourceAwsSnsApplicationRead d meta
  = mkOutcome (Some (ErrIDForm (arn.ARNString a) None)) d meta.
Proof.
  intros HP Hparts. unfold resourceAwsSnsApplicationRead. rewrite HP.
  destruct (GoStrings.Split "/" (arn.Resource a)) as [|x0 [|x1 [|x2 [|x3 xs]]]];
    try done.
  cbn [length Nat.eqb negb orb nth].
  destruct (String.eqb_spec x0 "app") as [->|Hne]; [|done].
  destruct Hparts. by exists x1, x2.
Qed.

(** Read on an identifier that parses: the three fields are set, one fetch
    is sent, and its answer decides the rest. *)
Lemma Read_parsed d meta (a : arn.ARN) (pl nm : string) :
  arn.Parse (Id d) = (a, None) →
  GoStrings.Split "/" (arn.Resource a) = ["app"; pl; nm] →
  resourceAwsSnsApplicationRead d meta =
  let out := GetPlatformApplicationAttributes (arn.ARNString a) (snsconn meta) in
  let meta' := send (GetPlatformApplicationAttributesInput (arn.ARNString a)) meta out.2 in
  match out.1 with
  | inl e => mkOutcome (Some (ErrRemote e)) (identified d a pl nm) meta'
  | inr attrmap => mkOutcome None (copyAttributes attrmap (identified d a pl nm)) meta'
  end.
Proof.
  intros HP Hparts. unfold resourceAwsSnsApplicationRead. rewrite HP, Hparts.
  cbn [length Nat.eqb negb orb nth]. change (String.eqb "app" "app") with true.
  cbn [negb]. cbv zeta.
  by destruct (GetPlatformApplicationAttributes _ _) as [[e|attrmap] c].
Qed.

Lemma identified_state d (a : arn.ARN) (pl nm : string) :
  state (identified d a pl nm)
  = <["platform" := pl]> (<["name" := nm]> (<["arn" := arn.ARNString a]> (state d))).
Proof. reflexivity. Qed.

(** Attributes whose remote name no local field is mapped to play no part. *)
Lemma copyAttributes_agree attrmap attrmap' d :
  (∀ k oKey, SNSPlatformAppAttributeMap !! k = Some oKey →
             attrmap' !! oKey = attrmap !! oKey) →
  copyAttributes attrmap' d = copyAttributes attrmap d.
Proof.
  intros Hagree.
  pose proof (copyAttributes_rest attrmap d) as (H1 & H2 & H3).
  pose proof (copyAttributes_rest attrmap' d) as (H1' & H2' & H3').
  assert (state (copyAttributes attrmap' d) = state (copyAttributes attrmap d)) as H4.
  { apply map_eq; intros k. rewrite !copyAttributes_state.
    destruct (SNSPlatformAppAttributeMap !! k) as [oKey|] eqn:Hk; [|done].
    by rewrite (Hagree k oKey Hk). }
  destruct (copyAttributes attrmap' d), (copyAttributes attrmap d).
  cbn in *. congruence.
Qed.

Lemma identified_lookup d (a : arn.ARN) (pl nm : string) :
  state (identified d a pl nm) !! "platform" = Some pl
  ∧ state (identified d a pl nm) !! "name" = Some nm
  ∧ state (identified d a pl nm) !! "arn" = Some (arn.ARNString a).
Proof. rewrite identified_state. repeat split; by simplify_map_eq. Qed.

End ReadFacts.

(** ** Read: main results *)

Import ResourceData.

Section ReadResults.
Context {conn : Type} `{!SNSAPI conn}.

(** C1. For every identifier of the form
    arn:PARTITION:sns:REGION:ACCOUNTID:app/PLATFORM/NAME (the first three
    parts free of colons, PLATFORM and NAME free of slashes), Read sets the
    local platform field to PLATFORM and the local name field to NAME and
    does not fail on the identifier; and for every identifier that does not
    parse as a structured address, or whose resource path is not exactly
    three slash-separated segments of which the first is [app], Read fails
    with a MalformedIdentifierError and leaves the data and the service
    untouched. *)
Theorem Read_identifier :
  (∀ (P R A PLATFORM NAME : string) (d : ResourceData.t) (meta : AWSClient conn),
      GoStrings.Contains ":" P = false →
      GoStrings.Contains ":" R = false →
      GoStrings.Contains ":" A = false →
      GoStrings.Contains "/" PLATFORM = false →
      GoStrings.Contains "/" NAME = false →
      Id d = applicationArn P R A PLATFORM NAME →
      let out := resourceAwsSnsApplicationRead d meta in
      state (data out) !! "platform" = Some PLATFORM
      ∧ state (data out) !! "name" = Some NAME
      ∧ ∀ e, err out = Some e → ¬ MalformedIdentifierError e)
  ∧ (∀ (d : ResourceData.t) (meta : AWSClient conn),
      (arn.Parse (Id d)).2 ≠ None
      ∨ (¬ ∃ pl nm, GoStrings.Split "/" (arn.Resource (arn.Parse (Id d)).1)
                    = ["app"; pl; nm]) →
      ∃ e, resourceAwsSnsApplicationRead d meta = mkOutcome (Some e) d meta
           ∧ MalformedIdentifierError e).
Proof.
  split.
  - intros P R A PLATFORM NAME d meta HP HR HA HPL HNM Hid out.
    assert (arn.Parse (Id d)
            = (arn.mkARN P "sns" R A ("app/" +:+ PLATFORM +:+ "/" +:+ NAME), None))
      as Hparse by (rewrite Hid; by apply Parse_applicationArn).
    assert (GoStrings.Split "/" ("app/" +:+ PLATFORM +:+ "/" +:+ NAME)
            = ["app"; PLATFORM; NAME]) as Hsplit.
    { rewrite !append_String, !append_empty.
      rewrite (Split_append "/" "app" (PLATFORM +:+ String "/" NAME) eq_refl
               : GoStrings.Split "/" (String "a" (String "p" (String "p" (String "/" _))))
                 = _).
      rewrite (Split_append "/" PLATFORM) by done.
      by rewrite Split_absent. }
    subst out. rewrite (Read_parsed d meta _ PLATFORM NAME Hparse Hsplit). cbv zeta.
    destruct (GetPlatformApplicationAttributes _ _).1 as [e|attrmap]; cbn [data err].
    + destruct (identified_lookup d (arn.mkARN P "sns" R A
                  ("app/" +:+ PLATFORM +:+ "/" +:+ NAME)) PLATFORM NAME) as (Hpl & Hnm & _).
      repeat split; [done..|]. by intros ? [= <-] [].
    + rewrite !copyAttributes_state, !AttributeMap_not_identity
        by (rewrite !elem_of_cons; auto).
      destruct (identified_lookup d (arn.mkARN P "sns" R A
                  ("app/" +:+ PLATFORM +:+ "/" +:+ NAME)) PLATFORM NAME) as (Hpl & Hnm & _).
      by repeat split.
  - intros d meta Hbad.
    destruct (arn.Parse (Id d)) as [a [e|]] eqn:HP; cbn [fst snd] in Hbad.
    + eexists. by rewrite (Read_unparsed d meta a e HP).
    + destruct Hbad as [?|Hbad]; [done|].
      eexists. by rewrite (Read_bad_resource d meta a HP Hbad).
Qed.

(** C10. Read writes the arn, name and platform fields derived from the
    identifier before it fetches the remote attributes: for every identifier
    that parses, when the fetch fails Read returns the error of the fetch,
    and the three fields are already updated in the local state. *)
Theorem Read_fetch_failure (d : ResourceData.t) (meta : AWSClient conn)
    (a : arn.ARN) (pl nm e : string) (c : conn) :
  arn.Parse (Id d) = (a, None) →
  GoStrings.Split "/" (arn.Resource a) = ["app"; pl; nm] →
  GetPlatformApplicationAttributes (Id d) (snsconn meta) = (inl e, c) →
  let out := resourceAwsSnsApplicationRead d meta in
  err out = Some (ErrRemote e)
  ∧ state (data out)
    = <["platform" := pl]> (<["name" := nm]> (<["arn" := Id d]> (state d)))
  ∧ client out
    = mkAWSClient c (sent meta ++ [GetPlatformApplicationAttributesInput (Id d)]).
Proof.
  intros HP Hparts Hget out. subst out.
  rewrite (Read_parsed d meta a pl nm HP Hparts). cbv zeta.
  rewrite (Parse_String _ _ HP), Hget. cbn [fst snd err data client].
  rewrite identified_state, (Parse_String _ _ HP). by repeat split.
Qed.

(** C8. For every fetched attribute set, Read copies into the local state
    only values whose remote name is in the attribute map and whose local
    field is declared in the schema: after a successful Read a field holds
    the fetched value when its mapped remote name was fetched, and what the
    identifier gave it or what it held before otherwise; every field Read
    changed is declared; and remote attributes that no local field is mapped
    to are ignored. *)
Theorem Read_copies_mapped_attributes (d : ResourceData.t) (meta : AWSClient conn)
    (a : arn.ARN) (pl nm : string) (attrmap : gmap string string) (c : conn) :
  arn.Parse (Id d) = (a, None) →
  GoStrings.Split "/" (arn.Resource a) = ["app"; pl; nm] →
  GetPlatformApplicationAttributes (Id d) (snsconn meta) = (inr attrmap, c) →
  let out := resourceAwsSnsApplicationRead d meta in
  let base := <["platform" := pl]> (<["name" := nm]> (<["arn" := Id d]> (state d))) in
  err out = None
  ∧ (∀ k : string,
        state (data out) !! k =
        match SNSPlatformAppAttributeMap !! k with
        | Some oKey =>
            match attrmap !! oKey with
            | Some v => Some v
            | None => base !! k
            end
        | None => base !! k
        end)
  ∧ (∀ k : string,
        state (data out) !! k ≠ state d !! k → is_Some (resourceSchema !! k))
  ∧ (∀ attrmap' : gmap string string,
        (∀ k oKey, SNSPlatformAppAttributeMap !! k = Some oKey →
                   attrmap' !! oKey = attrmap !! oKey) →
        copyAttributes attrmap' (identified d a pl nm) = data out).
Proof.
  intros HP Hparts Hget out base. subst out.
  rewrite (Read_parsed d meta a pl nm HP Hparts). cbv zeta.
  rewrite (Parse_String _ _ HP), Hget. cbn [fst snd err data client].
  assert (∀ k : string,
             state (copyAttributes attrmap (identified d a pl nm)) !! k =
             match SNSPlatformAppAttributeMap !! k with
             | Some oKey =>
                 match attrmap !! oKey with
                 | Some v => Some v
                 | None => base !! k
                 end
             | None => base !! k
             end) as Hstate.
  { intros k. rewrite copyAttributes_state, identified_state.
    by rewrite (Parse_String _ _ HP). }
  split; [done|]. split; [done|]. split.
  - intros k Hk. rewrite Hstate in Hk.
    destruct (SNSPlatformAppAttributeMap !! k) as [oKey|] eqn:Hmap.
    { by eapply AttributeMap_declared. }
    subst base.
    destruct (decide (k = "platform")) as [->|?]; [by apply (bool_decide_unpack _)|].
    destruct (decide (k = "name")) as [->|?]; [by apply (bool_decide_unpack _)|].
    destruct (decide (k = "arn")) as [->|?]; [by apply (bool_decide_unpack _)|].
    by rewrite !lookup_insert_ne in Hk.
  - intros attrmap' Hagree. by apply copyAttributes_agree.
Qed.

End ReadResults.

(** The identifier of scenario B gives platform GCM and name app1. *)
Lemma Read_identifier_witness :
  let out := resourceAwsSnsApplicationRead Scenario.imported FakeSNS.holding in
  state (data out) !! "platform" = Some "GCM"
  ∧ state (data out) !! "name" = Some "app1"
  ∧ ∀ e, err out = Some e → ¬ MalformedIdentifierError e.
Proof.
  apply (proj1 Read_identifier "aws" "us-east-1" "123456789012" "GCM" "app1");
    reflexivity.
Defined.

(** Scenario D: Read fails on a resource path that begins with [invalid]. *)
Example Read_scenario_D :
  resourceAwsSnsApplicationRead Scenario.invalid FakeSNS.holding
  = mkOutcome
      (Some (ErrIDForm "arn:aws:sns:us-east-1:123456789012:invalid/GCM/app1" None))
      Scenario.invalid FakeSNS.holding.
Proof. reflexivity. Qed.

Example Read_unparsed_example :
  resourceAwsSnsApplicationRead Scenario.unparsed FakeSNS.holding
  = mkOutcome (Some (ErrIDForm "arn:::::" (Some arn.invalidSections)))
      Scenario.unparsed FakeSNS.holding.
Proof. reflexivity. Qed.

(** The service holds nothing, so the fetch fails; the three fields are set
    all the same. *)
Lemma Read_fetch_failure_witness :
  let out := resourceAwsSnsApplicationRead Scenario.imported FakeSNS.fresh in
  err out = Some (ErrRemote FakeSNS.notFound)
  ∧ state (data out)
    = <["platform" := "GCM"]> (<["name" := "app1"]> (<["arn" := FakeSNS.gcmArn]> ∅))
  ∧ client out
    = mkAWSClient ∅ [GetPlatformApplicationAttributesInput FakeSNS.gcmArn].
Proof.
  apply (Read_fetch_failure Scenario.imported FakeSNS.fresh
           (arn.mkARN "aws" "sns" "us-east-1" "123456789012" "app/GCM/app1"));
    reflexivity.
Defined.

(** The service answers with one mapped attribute and two it has no local
    field for: only the sample rate reaches the local state. *)
Lemma Read_copies_mapped_attributes_witness :
  let out := resourceAwsSnsApplicationRead Scenario.imported FakeSNS.holding in
  let base : gmap string string :=
    <["platform" := "GCM"]> (<["name" := "app1"]> (<["arn" := FakeSNS.gcmArn]> ∅)) in
  err out = None
  ∧ (∀ k : string,
        state (data out) !! k =
        match SNSPlatformAppAttributeMap !! k with
        | Some oKey =>
            match FakeSNS.gcmAttributes !! oKey with
            | Some v => Some v
            | None => base !! k
            end
        | None => base !! k
        end)
  ∧ (∀ k : string,
        state (data out) !! k ≠ (∅ : gmap string string) !! k →
        is_Some (resourceSchema !! k))
  ∧ (∀ attrmap' : gmap string string,
        (∀ k oKey, SNSPlatformAppAttributeMap !! k = Some oKey →
                   attrmap' !! oKey = FakeSNS.gcmAttributes !! oKey) →
        copyAttributes attrmap'
          (identified Scenario.imported
             (arn.mkARN "aws" "sns" "us-east-1" "123456789012" "app/GCM/app1")
             "GCM" "app1")
        = data out).
Proof.
  apply (Read_copies_mapped_attributes Scenario.imported FakeSNS.holding
           (arn.mkARN "aws" "sns" "us-east-1" "123456789012" "app/GCM/app1")
           "GCM" "app1" FakeSNS.gcmAttributes
           {[ FakeSNS.gcmArn := FakeSNS.gcmAttributes ]});
    reflexivity.
Defined.

Example Read_ignores_unmapped :
  state (data (resourceAwsSnsApplicationRead Scenario.imported FakeSNS.holding))
  = list_to_map [("arn", FakeSNS.gcmArn); ("name", "app1"); ("platform", "GCM");
                 ("success_feedback_sample_rate", "50")].
Proof. vm_compute. repeat split. Qed.

(** ** Update *)

Section UpdateFacts.
Context {conn : Type} `{!SNSAPI conn}.
Implicit Types (d : ResourceData.t) (meta : AWSClient conn)
  (attributes : gmap string string) (keys : list string).

Lemma changedAttribute_other d attributes (k r : string) :
  SNSPlatformAppAttributeMap !! k ≠ Some r →
  changedAttribute d attributes k !! r = attributes !! r.
Proof.
  intros Hk. unfold changedAttribute.
  destruct (SNSPlatformAppAttributeMap !! k) as [attrKey|]; [|done].
  destruct (HasChange d k); [|done].
  destruct (GetChange d k) as [o n]. apply lookup_insert_ne. congruence.
Qed.

Lemma changedAttribute_unchanged d attributes (k : string) :
  HasChange d k = false → changedAttribute d attributes k = attributes.
Proof.
  intros Hk. unfold changedAttribute. rewrite Hk.
  by destruct (SNSPlatformAppAttributeMap !! k).
Qed.

Lemma changedAttribute_changed d attributes (k r : string) :
  SNSPlatformAppAttributeMap !! k = Some r → HasChange d k = true →
  changedAttribute d attributes k !! r = Some (GetChange d k).2.
Proof.
  intros Hk Hc. unfold changedAttribute. rewrite Hk, Hc.
  destruct (GetChange d k) as [o n]. apply lookup_insert_eq.
Qed.

(** A remote name whose local key did not change keeps what it had. *)
Lemma changed_fold_unchanged d keys attributes (r : string) :
  (∀ k, k ∈ keys → SNSPlatformAppAttributeMap !! k = Some r → HasChange d k = false) →
  foldl (changedAttribute d) attributes keys !! r = attributes !! r.
Proof.
  revert attributes. induction keys as [|k keys IH]; intros attributes Hno; [done|].
  cbn [foldl]. rewrite IH by (intros k' Hk'; apply Hno; by right).
  destruct (decide (SNSPlatformAppAttributeMap !! k = Some r)) as [Hk|Hk].
  - rewrite changedAttribute_unchanged; [done|]. apply Hno; [by left|done].
  - by apply changedAttribute_other.
Qed.

(** A remote name whose local key changed holds the new value. *)
Lemma changed_fold_changed d keys attributes (k r : string) :
  k ∈ keys → SNSPlatformAppAttributeMap !! k = Some r → HasChange d k = true →
  foldl (changedAttribute d) attributes keys !! r = Some (GetChange d k).2.
Proof.
  revert attributes. induction keys as [|k' keys IH]; intros attributes Hin Hk Hc.
  { by apply elem_of_nil in Hin. }
  cbn [foldl]. destruct (decide (k ∈ keys)) as [Hin'|Hout]; [by apply IH|].
  apply elem_of_cons in Hin as [<-|?]; [|done].
  rewrite changed_fold_unchanged; [by apply changedAttribute_changed|].
  intros k' Hk' Hmap. by rewrite (AttributeMap_inj k' k r Hmap Hk) in Hk'.
Qed.

Lemma changedAttributes_lookup d keys (k r : string) :
  k ∈ keys → SNSPlatformAppAttributeMap !! k = Some r →
  changedAttributes keys d !! r
  = if HasChange d k then Some (GetChange d k).2 else None.
Proof.
  intros Hin Hk. unfold changedAttributes.
  destruct (HasChange d k) eqn:Hc; [by apply changed_fold_changed|].
  rewrite changed_fold_unchanged; [done|].
  intros k' _ Hk'. by rewrite (AttributeMap_inj k' k r Hk' Hk).
Qed.

Lemma changedAttributes_unmapped d keys (r : string) :
  (∀ k, SNSPlatformAppAttributeMap !! k ≠ Some r) →
  changedAttributes keys d !! r = None.
Proof.
  intros Hno. unfold changedAttributes.
  rewrite changed_fold_unchanged; [done|]. intros k _ Hk. by destruct (Hno k).
Qed.

Lemma schemaKeys_mapped (k r : string) :
  SNSPlatformAppAttributeMap !! k = Some r → k ∈ resourceSchemaKeys.
Proof.
  intros [sch Hk]%AttributeMap_declared.
  apply elem_of_list_to_map_2 in Hk. apply list_elem_of_fmap. by exists (k, sch).
Qed.

(** The order in which Go walks the schema does not matter. *)
Lemma changedAttributes_order d keys :
  keys ≡ₚ resourceSchemaKeys →
  changedAttributes keys d = changedAttributes resourceSchemaKeys d.
Proof.
  intros Hperm. apply map_eq; intros r.
  destruct (decide (r ∈ SNSPlatformAppAttributeEntries.*2)) as [Hr|Hno].
  - apply list_elem_of_fmap in Hr as ([k r'] & -> & Hk%AttributeMap_lookup).
    cbn [snd] in *.
    rewrite !(changedAttributes_lookup d _ k r'); try done.
    + by eapply schemaKeys_mapped.
    + rewrite Hperm. by eapply schemaKeys_mapped.
  - rewrite !changedAttributes_unmapped; [done|..];
      intros k Hk%AttributeMap_lookup; apply Hno, list_elem_of_fmap; by exists (k, r).
Qed.

Lemma credentialAttributes_lookup d attributes (r : string) :
  credentialAttributes d attributes !! r =
  if HasChange d "platform_credential" then
    match GetOk d "platform_principal" with
    | (v, true) =>
        if decide (r = "PlatformPrincipal") then Some v
        else if decide (r = "PlatformCredential")
             then Some (Get d "platform_credential")
             else attributes !! r
    | (_, false) =>
        if decide (r = "PlatformCredential")
        then Some (Get d "platform_credential")
        else attributes !! r
    end
  else attributes !! r.
Proof.
  unfold credentialAttributes. destruct (HasChange d "platform_credential"); [|done].
  destruct (GetOk d "platform_principal") as [v [|]];
    repeat case_decide; subst; by simplify_map_eq.
Qed.

Lemma AttributeMap_no_credential (k : string) :
  SNSPlatformAppAttributeMap !! k ≠ Some "PlatformCredential".
Proof.
  rewrite AttributeMap_lookup. unfold SNSPlatformAppAttributeEntries.
  rewrite !elem_of_cons, !elem_of_nil.
  intros H; repeat destruct H as [H|H]; done.
Qed.

Lemma AttributeMap_principal (k : string) :
  SNSPlatformAppAttributeMap !! k = Some "PlatformPrincipal" ↔ k = "platform_principal".
Proof.
  split; [|by intros ->].
  intros Hk. by apply (AttributeMap_inj k "platform_principal" "PlatformPrincipal").
Qed.

(** [GetOk] and the new side of [GetChange] read the same configuration. *)
Lemma GetOk_GetChange d (k v : string) :
  GetOk d k = (v, true) → (GetChange d k).2 = v.
Proof.
  unfold GetOk, GetChange. destruct (config d !! k); by intros [= <- _].
Qed.

Lemma updateAttributes_mapped d keys (k r : string) :
  k ∈ keys → SNSPlatformAppAttributeMap !! k = Some r → k ≠ "platform_principal" →
  updateAttributesIn keys d !! r
  = if HasChange d k then Some (GetChange d k).2 else None.
Proof.
  intros Hin Hk Hne. unfold updateAttributesIn.
  assert (r ≠ "PlatformPrincipal") by (intros ->; by apply AttributeMap_principal in Hk).
  assert (r ≠ "PlatformCredential") by (intros ->; by apply AttributeMap_no_credential in Hk).
  rewrite credentialAttributes_lookup, (changedAttributes_lookup d keys k r) by done.
  destruct (HasChange d "platform_credential"); [|done].
  destruct (GetOk d "platform_principal") as [v [|]]; by repeat case_decide.
Qed.

Lemma updateAttributes_credential d keys :
  updateAttributesIn keys d !! "PlatformCredential"
  = if HasChange d "platform_credential"
    then Some (Get d "platform_credential") else None.
Proof.
  unfold updateAttributesIn.
  rewrite credentialAttributes_lookup, changedAttributes_unmapped
    by apply AttributeMap_no_credential.
  destruct (HasChange d "platform_credential"); [|done].
  by destruct (GetOk d "platform_principal") as [v [|]].
Qed.

Lemma updateAttributes_principal d keys :
  "platform_principal" ∈ keys →
  updateAttributesIn keys d !! "PlatformPrincipal"
  = match HasChange d "platform_credential", GetOk d "platform_principal" with
    | true, (v, true) => Some v
    | _, _ =>
        if HasChange d "platform_principal"
        then Some (GetChange d "platform_principal").2 else None
    end.
Proof.
  intros Hin. unfold updateAttributesIn.
  rewrite credentialAttributes_lookup,
    (changedAttributes_lookup d keys "platform_principal" "PlatformPrincipal") by done.
  destruct (HasChange d "platform_credential"); [|done].
  by destruct (GetOk d "platform_principal") as [v [|]].
Qed.

Lemma updateAttributes_unmapped d keys (r : string) :
  r ≠ "PlatformCredential" → (∀ k, SNSPlatformAppAttributeMap !! k ≠ Some r) →
  updateAttributesIn keys d !! r = None.
Proof.
  intros Hne Hno. unfold updateAttributesIn.
  assert (r ≠ "PlatformPrincipal") by (intros ->; by apply (Hno "platform_principal")).
  rewrite credentialAttributes_lookup, changedAttributes_unmapped by done.
  destruct (HasChange d "platform_credential"); [|done].
  destruct (GetOk d "platform_principal") as [v [|]]; by repeat case_decide.
Qed.

Lemma updateAttributes_order d keys :
  keys ≡ₚ resourceSchemaKeys → updateAttributesIn keys d = updateAttributes d.
Proof.
  intros Hperm. unfold updateAttributes, updateAttributesIn.
  by rewrite (changedAttributes_order d keys Hperm).
Qed.

(** Update sends its request first, whatever happens next. *)
Lemma Update_sent d meta :
  ∃ rest,
    sent (client (resourceAwsSnsApplicationUpdate d meta))
    = (sent meta
       ++ SetPlatformApplicationAttributesInput (Id d) (updateAttributes d) :: rest)%list.
Proof.
  unfold resourceAwsSnsApplicationUpdate. cbv zeta.
  destruct (SetPlatformApplicationAttributes _ _ _) as [[e|] c]; cbn [client sent send].
  { by exists []. }
  unfold resourceAwsSnsApplicationRead.
  destruct (arn.Parse (Id d)) as [a [e|]]; cbn [client sent send].
  { by exists []. }
  destruct (_ || _); cbn [client sent send].
  { by exists []. }
  destruct (GetPlatformApplicationAttributes _ _) as [[e|attrmap] c'];
    cbn [client sent send]; rewrite <- app_assoc; by eexists.
Qed.

End UpdateFacts.

(** ** Update: main results *)

Section UpdateResults.
Context {conn : Type} `{!SNSAPI conn}.

(** C2. For every config and prior config, the attribute map Update sends
    holds, for each key of the attribute map, the new value under the remote
    name exactly when the field changed; in addition, when
    platform_credential changed it holds PlatformCredential, and
    PlatformPrincipal too whenever a principal is set, whether or not the
    principal changed; it holds nothing else. An Update that changes only
    success_feedback_sample_rate from 50 to 100 sends exactly
    SuccessFeedbackSampleRate = 100. The order in which the schema is walked
    does not matter. *)
Theorem Update_attribute_map (d : ResourceData.t) (meta : AWSClient conn) :
  let attributes := updateAttributes d in
  (∃ rest,
      sent (client (resourceAwsSnsApplicationUpdate d meta))
      = (sent meta
         ++ SetPlatformApplicationAttributesInput (Id d) attributes :: rest)%list)
  ∧ (∀ k attrKey : string,
        SNSPlatformAppAttributeMap !! k = Some attrKey →
        HasChange d k = true →
        attributes !! attrKey = Some (GetChange d k).2)
  ∧ (∀ k attrKey : string,
        SNSPlatformAppAttributeMap !! k = Some attrKey →
        k ≠ "platform_principal" →
        HasChange d k = false →
        attributes !! attrKey = None)
  ∧ attributes !! "PlatformCredential"
    = (if HasChange d "platform_credential"
       then Some (Get d "platform_credential") else None)
  ∧ attributes !! "PlatformPrincipal"
    = match HasChange d "platform_credential", GetOk d "platform_principal" with
      | true, (v, true) => Some v
      | _, _ =>
          if HasChange d "platform_principal"
          then Some (GetChange d "platform_principal").2 else None
      end
  ∧ (∀ r : string,
        is_Some (attributes !! r) →
        r = "PlatformCredential" ∨ ∃ k, SNSPlatformAppAttributeMap !! k = Some r)
  ∧ (GetChange d "success_feedback_sample_rate" = ("50", "100") →
     (∀ k : string,
         k ∈ resourceSchemaKeys → k ≠ "success_feedback_sample_rate" →
         HasChange d k = false) →
     attributes = {[ "SuccessFeedbackSampleRate" := "100" ]})
  ∧ (∀ keys : list string,
        keys ≡ₚ resourceSchemaKeys → updateAttributesIn keys d = attributes).
Proof.
  intros attributes. subst attributes.
  assert ("platform_principal" ∈ resourceSchemaKeys) as Hprincipal
    by (apply (bool_decide_unpack _); by vm_compute).
  assert (∀ r : string,
             r ∉ SNSPlatformAppAttributeEntries.*2 →
             ∀ k, SNSPlatformAppAttributeMap !! k ≠ Some r) as Hunmapped.
  { intros r Hr k Hk%AttributeMap_lookup. apply Hr, list_elem_of_fmap. by exists (k, r). }
  split; [apply Update_sent|]. split; [|split; [|split; [|split; [|split; [|split]]]]].
  - intros k attrKey Hk Hc. destruct (decide (k = "platform_principal")) as [->|Hne].
    + assert (attrKey = "PlatformPrincipal") as -> by (vm_compute in Hk; congruence).
      unfold updateAttributes. rewrite updateAttributes_principal, Hc by done.
      destruct (HasChange d "platform_credential"); [|done].
      destruct (GetOk d "platform_principal") as [v [|]] eqn:Hok; [|done].
      by rewrite (GetOk_GetChange d _ v Hok).
    + unfold updateAttributes.
      rewrite (updateAttributes_mapped d _ k attrKey), Hc; try done.
      by eapply schemaKeys_mapped.
  - intros k attrKey Hk Hne Hc. unfold updateAttributes.
    rewrite (updateAttributes_mapped d _ k attrKey), Hc; try done.
    by eapply schemaKeys_mapped.
  - apply updateAttributes_credential.
  - by apply updateAttributes_principal.
  - intros r Hsome. destruct (decide (r = "PlatformCredential")) as [->|Hne]; [by left|].
    right. destruct (decide (r ∈ SNSPlatformAppAttributeEntries.*2)) as [Hr|Hr].
    + apply list_elem_of_fmap in Hr as ([k r'] & -> & Hk%AttributeMap_lookup).
      by exists k.
    + unfold updateAttributes in Hsome.
      rewrite updateAttributes_unmapped in Hsome by auto. by destruct Hsome.
  - intros Hrate Hrest. apply map_eq; intros r.
    assert (HasChange d "success_feedback_sample_rate" = true) as Hc
      by (unfold HasChange; by rewrite Hrate).
    assert (HasChange d "platform_credential" = false) as Hcred
      by (apply Hrest; [apply (bool_decide_unpack _); by vm_compute|done]).
    destruct (decide (r = "PlatformCredential")) as [->|Hne].
    { unfold updateAttributes. by rewrite updateAttributes_credential, Hcred. }
    destruct (decide (r ∈ SNSPlatformAppAttributeEntries.*2)) as [Hr|Hr].
    + apply list_elem_of_fmap in Hr as ([k r'] & -> & Hk%AttributeMap_lookup).
      cbn [snd]. pose proof (schemaKeys_mapped k r' Hk) as Hin.
      destruct (decide (k = "success_feedback_sample_rate")) as [->|Hk'].
      * assert (r' = "SuccessFeedbackSampleRate") as ->
          by (vm_compute in Hk; congruence).
        unfold updateAttributes.
        rewrite (updateAttributes_mapped d _ _ _ Hin Hk), Hc, Hrate by done.
        by rewrite lookup_singleton_eq.
      * assert (r' ≠ "SuccessFeedbackSampleRate") as Hr'.
        { intros ->. apply Hk'.
          by apply (AttributeMap_inj _ _ "SuccessFeedbackSampleRate"). }
        rewrite lookup_singleton_ne by done.
        destruct (decide (k = "platform_principal")) as [->|Hpr].
        -- assert (r' = "PlatformPrincipal") as -> by (vm_compute in Hk; congruence).
           unfold updateAttributes.
           by rewrite updateAttributes_principal, Hcred, (Hrest "platform_principal").
        -- unfold updateAttributes.
           by rewrite (updateAttributes_mapped d _ _ _ Hin Hk), (Hrest k).
    + unfold updateAttributes. rewrite updateAttributes_unmapped by auto.
      rewrite lookup_singleton_ne; [done|]. intros <-. apply Hr.
      apply (bool_decide_unpack _). by vm_compute.
  - intros keys Hperm. by apply updateAttributes_order.
Qed.

(** C6. For every config and prior config, when the remote update call
    fails, Update returns an UpdateError that carries the message of the
    remote error, and the resource data is what it was: no local field is
    changed, and nothing else is sent. *)
Theorem Update_failure (d : ResourceData.t) (meta : AWSClient conn)
    (e : string) (c : conn) :
  SetPlatformApplicationAttributes (Id d) (updateAttributes d) (snsconn meta)
  = (Some e, c) →
  let out := resourceAwsSnsApplicationUpdate d meta in
  err out = Some (ErrUpdating e)
  ∧ UpdateError (ErrUpdating e)
  ∧ Error (ErrUpdating e) = "Error updating SNS application: " +:+ e
  ∧ data out = d
  ∧ client out
    = mkAWSClient c
        (sent meta ++ [SetPlatformApplicationAttributesInput (Id d) (updateAttributes d)]).
Proof.
  intros Hset out. subst out. unfold resourceAwsSnsApplicationUpdate. cbv zeta.
  by rewrite Hset.
Qed.

End UpdateResults.

(** Scenario C on the test double. *)
Lemma Update_attribute_map_witness :
  updateAttributes Scenario.rateChange = {[ "SuccessFeedbackSampleRate" := "100" ]}.
Proof.
  apply (proj1 (proj2 (proj2 (proj2 (proj2 (proj2 (proj2
           (Update_attribute_map Scenario.rateChange FakeSNS.holding)))))))).
  - reflexivity.
  - intros k Hk Hne. unfold resourceSchemaKeys, resourceSchemaEntries in Hk.
    cbn [fmap list_fmap fst] in Hk. rewrite !elem_of_cons, elem_of_nil in Hk.
    repeat destruct Hk as [Hk|Hk]; try done; subst k; try done; by vm_compute.
Defined.

Example Update_rotation :
  updateAttributes Scenario.rotation
  = list_to_map [("PlatformCredential", "new"); ("PlatformPrincipal", "key")].
Proof. vm_compute. repeat split. Qed.

(** The service holds nothing, so the update call fails. *)
Lemma Update_failure_witness :
  let out := resourceAwsSnsApplicationUpdate Scenario.rateChange FakeSNS.fresh in
  err out = Some (ErrUpdating FakeSNS.notFound)
  ∧ UpdateError (ErrUpdating FakeSNS.notFound)
  ∧ Error (ErrUpdating FakeSNS.notFound)
    = "Error updating SNS application: " +:+ FakeSNS.notFound
  ∧ data out = Scenario.rateChange
  ∧ client out
    = mkAWSClient ∅
        [SetPlatformApplicationAttributesInput FakeSNS.gcmArn
           (updateAttributes Scenario.rateChange)].
Proof.
  apply (Update_failure Scenario.rateChange FakeSNS.fresh FakeSNS.notFound ∅).
  reflexivity.
Defined.

(** ** Create and Delete *)

Section CreateDeleteResults.
Context {conn : Type} `{!SNSAPI conn}.

Lemma Read_id (d : ResourceData.t) (meta : AWSClient conn) :
  Id (data (resourceAwsSnsApplicationRead d meta)) = Id d.
Proof.
  unfold resourceAwsSnsApplicationRead.
  destruct (arn.Parse (Id d)) as [a [e|]]; [done|].
  destruct (_ || _); [done|]. cbv zeta.
  destruct (GetPlatformApplicationAttributes _ _) as [[e|attrmap] c]; [done|].
  cbn [data]. unfold Id. by destruct (copyAttributes_rest attrmap
    (Set_ "platform" (nth 1 (GoStrings.Split "/" (arn.Resource a)) "")
       (Set_ "name" (nth 2 (GoStrings.Split "/" (arn.Resource a)) "")
          (Set_ "arn" (arn.ARNString a) d)))) as (-> & _).
Qed.

Lemma Update_id (d : ResourceData.t) (meta : AWSClient conn) :
  Id (data (resourceAwsSnsApplicationUpdate d meta)) = Id d.
Proof.
  unfold resourceAwsSnsApplicationUpdate. cbv zeta.
  destruct (SetPlatformApplicationAttributes _ _ _) as [[e|] c]; [done|].
  apply Read_id.
Qed.

(** C5. For every identifier, Delete sends exactly one deletion request, for
    that identifier; when the remote call fails, Delete fails with the remote
    error, whose message it carries unchanged; otherwise it returns nil. The
    resource data is left as it was, and no error is treated specially. *)
Theorem Delete_request (d : ResourceData.t) (meta : AWSClient conn) :
  let answer := DeletePlatformApplication (Id d) (snsconn meta) in
  let out := resourceAwsSnsApplicationDelete d meta in
  client out = mkAWSClient answer.2 (sent meta ++ [DeletePlatformApplicationInput (Id d)])
  ∧ err out = ErrRemote <$> answer.1
  ∧ (∀ e : error, err out = Some e → answer.1 = Some (Error e))
  ∧ data out = d.
Proof.
  cbv zeta. unfold resourceAwsSnsApplicationDelete. cbv zeta.
  destruct (DeletePlatformApplication _ _) as [[e|] c]; cbn [fst snd];
    repeat split; try done. by intros ? [= <-].
Qed.

End CreateDeleteResults.

(** One request is sent for the identifier, and the NotFound of the service
    is what Delete returns. *)
Lemma Delete_request_witness :
  let out := resourceAwsSnsApplicationDelete Scenario.imported FakeSNS.fresh in
  client out = mkAWSClient ∅ [DeletePlatformApplicationInput FakeSNS.gcmArn]
  ∧ err out = Some (ErrRemote FakeSNS.notFound).
Proof.
  split.
  - exact (proj1 (Delete_request Scenario.imported FakeSNS.fresh)).
  - exact (proj1 (proj2 (Delete_request Scenario.imported FakeSNS.fresh))).
Defined.

(** Scenario B: creating the GCM application on the test double succeeds, the
    identifier is the one the service minted, and the Read that ends the
    Update gives platform and name back. *)
Example Create_scenario_B :
  let out := resourceAwsSnsApplicationCreate Scenario.gcm FakeSNS.fresh in
  err out = None
  ∧ Id (data out) = "arn:aws:sns:us-east-1:123456789012:app/GCM/app1"
  ∧ state (data out) !! "platform" = Some "GCM"
  ∧ state (data out) !! "name" = Some "app1"
  ∧ sent (client out)
    = [ CreatePlatformApplicationInput "app1" "GCM" {[ "PlatformCredential" := "cred" ]};
        SetPlatformApplicationAttributesInput FakeSNS.gcmArn
          (list_to_map [("PlatformCredential", "cred")]);
        GetPlatformApplicationAttributesInput FakeSNS.gcmArn ].
Proof. vm_compute. repeat split. Qed.

(** Deleting what the service does not hold: its error comes back as it is. *)
Example Delete_absent :
  resourceAwsSnsApplicationDelete Scenario.imported FakeSNS.fresh
  = mkOutcome (Some (ErrRemote FakeSNS.notFound)) Scenario.imported
      (mkAWSClient ∅ [DeletePlatformApplicationInput FakeSNS.gcmArn]).
Proof. reflexivity. Qed.

Example Delete_held :
  resourceAwsSnsApplicationDelete Scenario.imported FakeSNS.holding
  = mkOutcome None Scenario.imported
      (mkAWSClient ∅ [DeletePlatformApplicationInput FakeSNS.gcmArn]).
Proof. vm_compute. repeat split. Qed.

(** ** Validation and the tables *)

(** The three ways of Validate for a platform of the principal-required
    set, by what [GetOk] answers for the principal, and its one way for any
    other platform; this is the function as it is written, for any diff. *)
Lemma validate_by_answers (d : ResourceDiff.t) :
  let platform := ResourceDiff.Get d "platform" in
  let principal := ResourceDiff.GetOk d "platform_principal" in
  (requiresPlatformPrincipal platform = true →
     (principal.2 = false →
        validateAwsSnsPlatformApplication d = Some (ErrPrincipalRequired platform))
     ∧ (principal = ("", true) →
        validateAwsSnsPlatformApplication d = Some (ErrPrincipalNonEmpty platform))
     ∧ (principal.2 = true → principal.1 ≠ "" →
        validateAwsSnsPlatformApplication d = None))
  ∧ (requiresPlatformPrincipal platform = false →
     validateAwsSnsPlatformApplication d = None).
Proof.
  cbv zeta. unfold validateAwsSnsPlatformApplication. split.
  - intros ->. destruct (ResourceDiff.GetOk d "platform_principal") as [v ok].
    cbn [fst snd]. split; [|split].
    + by intros ->.
    + by intros [= -> ->].
    + intros -> Hv. by destruct v.
  - by intros ->.
Qed.

(** Scenario A: APNS without a principal does not pass validation. *)
Example validate_scenario_A :
  validateAwsSnsPlatformApplication Scenario.apnsNoPrincipal
  = Some (ErrPrincipalRequired "APNS").
Proof. reflexivity. Qed.

Example validate_with_principal :
  validateAwsSnsPlatformApplication Scenario.apnsWithPrincipal = None.
Proof. reflexivity. Qed.

Example validate_other_platform :
  validateAwsSnsPlatformApplication Scenario.gcmNoPrincipal = None.
Proof. reflexivity. Qed.

(** Validate returns the empty-principal error only for a diff whose [GetOk]
    reports a field present with the empty string as its value; where it
    never does, every failure of Validate is a MissingPrincipalError. *)
Lemma validate_empty_needs_present (d : ResourceDiff.t) :
  (∀ v : string, ResourceDiff.GetOk d "platform_principal" = (v, true) → v ≠ "") →
  ∀ e : error, validateAwsSnsPlatformApplication d = Some e → MissingPrincipalError e.
Proof.
  intros Hnz e. unfold validateAwsSnsPlatformApplication.
  destruct (requiresPlatformPrincipal _); [|done].
  destruct (ResourceDiff.GetOk d "platform_principal") as [v [|]] eqn:Hok.
  - destruct v; [by destruct (Hnz "")|done].
  - by intros [= <-].
Qed.

(** The diffs the engine makes never report an empty principal as present. *)
Lemma ofConfig_present_nonempty (config : gmap string string) (key v : string) :
  ResourceDiff.GetOk (ResourceDiff.ofConfig config) key = (v, true) → v ≠ "".
Proof.
  cbn [ResourceDiff.ofConfig ResourceDiff.GetOk].
  destruct (config !! key) as [w|]; [|done]. intros [= -> Hw] ->.
  by vm_compute in Hw.
Qed.

(** C3. The case of an empty principal, on the code: for the platform APNS
    with platform_principal configured as the empty string, [GetOk] reports
    the principal as absent, so Validate fails with the error of a missing
    principal, not with the error of an empty one; and for no planned
    configuration does Validate return the error of an empty principal: every
    failure is a MissingPrincipalError. The branch of the code that returns
    the empty-principal error is never taken. *)
Theorem validate_empty_principal_missing :
  ResourceDiff.GetOk Scenario.apnsEmptyPrincipal "platform_principal" = ("", false)
  ∧ validateAwsSnsPlatformApplication Scenario.apnsEmptyPrincipal
    = Some (ErrPrincipalRequired "APNS")
  ∧ ¬ EmptyPrincipalError (ErrPrincipalRequired "APNS")
  ∧ ∀ (config : gmap string string) (e : error),
      validateAwsSnsPlatformApplication (ResourceDiff.ofConfig config) = Some e →
      MissingPrincipalError e ∧ ¬ EmptyPrincipalError e.
Proof.
  split; [reflexivity|]. split; [reflexivity|]. split; [by intros []|].
  intros config e He.
  assert (MissingPrincipalError e) as Hm.
  { apply (validate_empty_needs_present (ResourceDiff.ofConfig config)); [|done].
    intros v. apply ofConfig_present_nonempty. }
  split; [done|]. destruct e; cbn in *; tauto.
Qed.

(** C9. The principal-required set holds exactly APNS and APNS_SANDBOX, and
    Validate enforces the requirement for these two platforms only: it fails
    exactly when the platform is one of the two and the principal is absent
    or empty. *)
Theorem principal_required_set :
  dom snsPlatformRequiresPlatformPrincipal = ({[ "APNS"; "APNS_SANDBOX" ]} : gset string)
  ∧ (∀ platform : string,
        requiresPlatformPrincipal platform = true ↔
        platform = "APNS" ∨ platform = "APNS_SANDBOX")
  ∧ (∀ d : ResourceDiff.t,
        is_Some (validateAwsSnsPlatformApplication d) ↔
        (ResourceDiff.Get d "platform" = "APNS"
         ∨ ResourceDiff.Get d "platform" = "APNS_SANDBOX")
        ∧ ((ResourceDiff.GetOk d "platform_principal").2 = false
           ∨ (ResourceDiff.GetOk d "platform_principal").1 = "")).
Proof.
  split; [by vm_compute|]. split; [apply requiresPlatformPrincipal_true|].
  intros d. rewrite <- requiresPlatformPrincipal_true.
  unfold validateAwsSnsPlatformApplication.
  destruct (requiresPlatformPrincipal (ResourceDiff.Get d "platform")).
  - destruct (ResourceDiff.GetOk d "platform_principal") as [v [|]]; cbn [fst snd].
    + destruct v; cbn [String.length Nat.eqb]; split.
      * by intros _; split; [|right].
      * by intros _.
      * by intros [? ?].
      * by intros [_ [?|?]].
    + split; [|done]. by intros _; split; [|left].
  - split; [by intros [? ?]|by intros [? _]].
Qed.

(** C4, as stated, fails: the attribute map has eight keys, not seven. *)
Lemma AttributeMap_not_seven :
  ¬ (size (dom SNSPlatformAppAttributeMap) = 7
     ∧ size (map_img SNSPlatformAppAttributeMap : gset string) = 7
     ∧ ∀ k, k ∈ dom SNSPlatformAppAttributeMap →
            ∃ sch, resourceSchema !! k = Some sch ∧ Optional sch = true).
Proof. intros [H _]. by vm_compute in H. Qed.

(** C4, amended. The attribute map is a fixed mapping from exactly eight
    local field names (the seven feedback and event fields, and
    platform_principal) to exactly eight remote attribute names, no two keys
    share a remote name, and every key is an optional field of the declared
    schema. *)
Theorem AttributeMap_eight :
  size (dom SNSPlatformAppAttributeMap) = 8
  ∧ size (map_img SNSPlatformAppAttributeMap : gset string) = 8
  ∧ SNSPlatformAppAttributeMap !! "platform_principal" = Some "PlatformPrincipal"
  ∧ (∀ k1 k2 r : string,
        SNSPlatformAppAttributeMap !! k1 = Some r →
        SNSPlatformAppAttributeMap !! k2 = Some r → k1 = k2)
  ∧ (∀ k : string,
        k ∈ dom SNSPlatformAppAttributeMap →
        ∃ sch, resourceSchema !! k = Some sch ∧ Optional sch = true).
Proof.
  split; [by vm_compute|]. split; [by vm_compute|]. split; [done|].
  split; [apply AttributeMap_inj|].
  intros k [r Hk]%elem_of_dom. apply AttributeMap_lookup in Hk.
  unfold SNSPlatformAppAttributeEntries in Hk.
  rewrite !elem_of_cons, elem_of_nil in Hk.
  repeat destruct Hk as [Hk|Hk]; try done; injection Hk as -> ->;
    eexists; split; by vm_compute.
Qed.

(* ===================================================================== *)
(** * Further properties *)

(** ** What the splitting functions give back *)

Section SplitFacts.
Import GoStrings.
Implicit Types (c a : ascii) (s p q : string).

Lemma Cut_before c s p q : Cut c s = Some (p, q) → Contains c p = false.
Proof.
  revert p q. induction s as [|a s IH]; simpl; intros p q; [done|].
  destruct (Ascii.eqb a c) eqn:Ea.
  - by intros [= <- <-].
  - destruct (Cut c s) as [[p' q']|] eqn:E; [|done].
    intros [= <- <-]. simpl. rewrite Ea. by eapply IH.
Qed.

Lemma SplitN_head n c s (x : string) (l : list string) :
  SplitN (S (S n)) c s = x :: l → l ≠ [] →
  Contains c x = false ∧ ∃ q, s = x +:+ String c q ∧ l = SplitN (S n) c q.
Proof.
  change (SplitN (S (S n)) c s)
    with (match Cut c s with
          | Some (before, after) => before :: SplitN (S n) c after
          | None => [s]
          end).
  destruct (Cut c s) as [[p q]|] eqn:E; [|by intros [= <- <-]].
  intros [= <- <-] _. split; [by eapply Cut_before|].
  exists q. split; [by apply Cut_Some|done].
Qed.

Lemma Split_cons c a s :
  Split c (String a s) =
  if Ascii.eqb a c then EmptyString :: Split c s
  else match Split c s with
       | x :: xs => String a x :: xs
       | [] => [String a EmptyString]
       end.
Proof. reflexivity. Qed.

Lemma Split_Join c s : Join c (Split c s) = s.
Proof.
  induction s as [|a s IH]; [done|]. rewrite Split_cons.
  destruct (Ascii.eqb_spec a c) as [->|Hne].
  - pose proof (Split_nonempty c s). destruct (Split c s) as [|x xs]; [done|].
    change (Join c (EmptyString :: x :: xs)) with ("" +:+ String c (Join c (x :: xs))).
    by rewrite IH.
  - destruct (Split c s) as [|x xs]; [by rewrite <- IH|].
    destruct xs as [|y ys].
    + cbn [Join] in *. by rewrite IH.
    + change (Join c (String a x :: y :: ys))
        with (String a (x +:+ String c (Join c (y :: ys)))).
      by rewrite <- IH.
Qed.

Lemma Split_parts c s (x : string) : x ∈ Split c s → Contains c x = false.
Proof.
  revert x. induction s as [|a s IH]; intros x.
  - by intros ->%list_elem_of_singleton.
  - rewrite Split_cons. destruct (Ascii.eqb a c) eqn:Ea.
    + intros [->|Hx]%elem_of_cons; [done|by apply IH].
    + destruct (Split c s) as [|y ys].
      * intros ->%list_elem_of_singleton. simpl. by rewrite Ea.
      * intros [->|Hx]%elem_of_cons.
        -- simpl. rewrite Ea. apply IH. by left.
        -- apply IH. by right.
Qed.

End SplitFacts.

(** ** The identifiers Read accepts *)

Section AcceptedIdentifiers.
Context {conn : Type} `{!SNSAPI conn}.
Import GoStrings.

Lemma Parse_inv (s : string) (a : arn.ARN) :
  arn.Parse s = (a, None) →
  s = arn.ARNString a
  ∧ Contains ":" (arn.Partition a) = false
  ∧ Contains ":" (arn.Service a) = false
  ∧ Contains ":" (arn.Region a) = false
  ∧ Contains ":" (arn.AccountID a) = false.
Proof.
  intros HP. split; [by rewrite (Parse_String s a HP)|].
  revert HP. unfold arn.Parse.
  destruct (HasPrefix s "arn:") eqn:Hpre; [|done]. cbn [negb].
  apply HasPrefix_arn in Hpre as [x ->]. rewrite (SplitN_arn 4).
  destruct (SplitN 5 ":" x) as [|p [|sv [|r [|ac [|res [|]]]]]] eqn:E; try done.
  intros [= <-]. cbn [arn.Partition arn.Service arn.Region arn.AccountID].
  apply SplitN_head in E as (Hp & q1 & _ & E); [|done]. symmetry in E.
  apply SplitN_head in E as (Hsv & q2 & _ & E); [|done]. symmetry in E.
  apply SplitN_head in E as (Hr & q3 & _ & E); [|done]. symmetry in E.
  apply SplitN_head in E as (Hac & q4 & _ & E); [|done].
  done.
Qed.

Lemma Split_app_resource (pl nm : string) :
  Contains "/" pl = false → Contains "/" nm = false →
  Split "/" ("app/" +:+ pl +:+ "/" +:+ nm) = ["app"; pl; nm].
Proof.
  intros Hpl Hnm. rewrite !append_String, !append_empty.
  rewrite (Split_append "/" "app" (pl +:+ String "/" nm) eq_refl
           : Split "/" (String "a" (String "p" (String "p" (String "/" _)))) = _).
  rewrite (Split_append "/" pl) by done. by rewrite Split_absent.
Qed.

Lemma Split_app_inv (s pl nm : string) :
  Split "/" s = ["app"; pl; nm] →
  s = "app/" +:+ pl +:+ "/" +:+ nm
  ∧ Contains "/" pl = false ∧ Contains "/" nm = false.
Proof.
  intros E. pose proof (Split_Join "/" s) as HJ. rewrite E in HJ.
  split; [|split].
  - rewrite <- HJ. cbn [Join]. by rewrite !append_String, !append_empty.
  - apply (Split_parts "/" s). rewrite E. set_solver.
  - apply (Split_parts "/" s). rewrite E. set_solver.
Qed.

Lemma app_form_cases (l : list string) :
  (∃ pl nm, l = ["app"; pl; nm]) ∨ ¬ (∃ pl nm, l = ["app"; pl; nm]).
Proof.
  destruct l as [|x0 [|x1 [|x2 [|x3 xs]]]];
    try (right; by intros (? & ? & [=])).
  destruct (decide (x0 = "app")) as [->|Hne]; [left; by eauto|].
  right. intros (? & ? & [=]). done.
Qed.

(** X1. Read gets past its check of the identifier exactly for the
    identifiers [arn:P:S:R:A:app/PLATFORM/NAME] in which P, S, R and A hold
    no colon and PLATFORM and NAME no slash. The service S need not be
    [sns], any of the parts may be empty, and NAME may hold colons. *)
Theorem Read_accepts_iff (d : ResourceData.t) (meta : AWSClient conn) :
  (∀ e, err (resourceAwsSnsApplicationRead d meta) = Some e →
        ¬ MalformedIdentifierError e)
  ↔ ∃ p sv r a pl nm : string,
      Contains ":" p = false ∧ Contains ":" sv = false
      ∧ Contains ":" r = false ∧ Contains ":" a = false
      ∧ Contains "/" pl = false ∧ Contains "/" nm = false
      ∧ Id d = "arn:" +:+ p +:+ ":" +:+ sv +:+ ":" +:+ r +:+ ":" +:+ a
               +:+ ":app/" +:+ pl +:+ "/" +:+ nm.
Proof.
  split.
  - intros Hok. destruct (arn.Parse (Id d)) as [a [e|]] eqn:HP.
    { destruct (Hok _ (f_equal err (Read_unparsed d meta a e HP))). exact I. }
    destruct (app_form_cases (Split "/" (arn.Resource a))) as [(pl & nm & E)|Hbad].
    + apply Parse_inv in HP as (Hid & Hp & Hsv & Hr & Hac).
      apply Split_app_inv in E as (Hres & Hpl & Hnm).
      exists (arn.Partition a), (arn.Service a), (arn.Region a), (arn.AccountID a), pl, nm.
      repeat split; try done.
      rewrite Hid. unfold arn.ARNString. rewrite Hres.
      by rewrite !append_String, !append_empty.
    + destruct (Hok _ (f_equal err (Read_bad_resource d meta a HP Hbad))). exact I.
  - intros (p & sv & r & a & pl & nm & Hp & Hsv & Hr & Ha & Hpl & Hnm & Hid) e.
    assert (arn.Parse (Id d) = (arn.mkARN p sv r a ("app/" +:+ pl +:+ "/" +:+ nm), None))
      as HP.
    { rewrite Hid, <- (Parse_sections p sv r a) by done.
      by rewrite !append_String, !append_empty. }
    rewrite (Read_parsed d meta _ pl nm HP (Split_app_resource pl nm Hpl Hnm)).
    cbv zeta. destruct (GetPlatformApplicationAttributes _ _).1; cbn [err]; [|done].
    by intros [= <-] [].
Qed.

End AcceptedIdentifiers.

Example Read_other_service :
  let out :=
    resourceAwsSnsApplicationRead
      (ResourceData.mk "arn::s3:::app//a:b" ∅ ∅ ∅) FakeSNS.fresh in
  err out = Some (ErrRemote FakeSNS.notFound)
  ∧ state (data out) !! "platform" = Some ""
  ∧ state (data out) !! "name" = Some "a:b".
Proof. vm_compute. repeat split. Qed.

(** ** What the handlers keep, and how they compose *)

Section Composition.
Context {conn : Type} `{!SNSAPI conn}.
Implicit Types (d : ResourceData.t) (meta : AWSClient conn).

Lemma ResourceData_eq d1 d2 :
  id d1 = id d2 → config d1 = config d2 → prior d1 = prior d2 →
  state d1 = state d2 → d1 = d2.
Proof. destruct d1, d2. cbn. congruence. Qed.

Lemma identified_lookup_key d (a : arn.ARN) (pl nm k : string) :
  state (identified d a pl nm) !! k =
  if decide (k = "platform") then Some pl
  else if decide (k = "name") then Some nm
  else if decide (k = "arn") then Some (arn.ARNString a)
  else state d !! k.
Proof. rewrite identified_state. repeat case_decide; by simplify_map_eq. Qed.

(** The two ways Read can go: it stops at the identifier, or it sets the
    three fields, sends one fetch and follows its answer. *)
Lemma Read_cases d meta :
  (∃ provided cause,
      resourceAwsSnsApplicationRead d meta
      = mkOutcome (Some (ErrIDForm provided cause)) d meta)
  ∨ (∃ (a : arn.ARN) (pl nm : string),
        arn.Parse (Id d) = (a, None)
        ∧ GoStrings.Split "/" (arn.Resource a) = ["app"; pl; nm]
        ∧ arn.ARNString a = Id d
        ∧ resourceAwsSnsApplicationRead d meta =
          let out := GetPlatformApplicationAttributes (Id d) (snsconn meta) in
          let meta' := send (GetPlatformApplicationAttributesInput (Id d)) meta out.2 in
          match out.1 with
          | inl e => mkOutcome (Some (ErrRemote e)) (identified d a pl nm) meta'
          | inr attrmap =>
              mkOutcome None (copyAttributes attrmap (identified d a pl nm)) meta'
          end).
Proof.
  destruct (arn.Parse (Id d)) as [a [e|]] eqn:HP.
  { left. eexists _, _. by apply (Read_unparsed d meta a e). }
  destruct (app_form_cases (GoStrings.Split "/" (arn.Resource a)))
    as [(pl & nm & E)|Hbad].
  - right. exists a, pl, nm. pose proof (Parse_String _ _ HP) as HS.
    repeat split; try done. rewrite (Read_parsed d meta a pl nm HP E). by rewrite HS.
  - left. eexists _, _. by apply (Read_bad_resource d meta a).
Qed.


Lemma identified_twice d (a : arn.ARN) (pl nm : string) :
  identified (identified d a pl nm) a pl nm = identified d a pl nm.
Proof.
  apply ResourceData_eq; try done. apply map_eq; intros k.
  rewrite !identified_lookup_key. by repeat case_decide.
Qed.

Lemma copy_identified_twice d (a : arn.ARN) (pl nm : string)
    (attrmap : gmap string string) :
  copyAttributes attrmap (identified (copyAttributes attrmap (identified d a pl nm)) a pl nm)
  = copyAttributes attrmap (identified d a pl nm).
Proof.
  pose proof (copyAttributes_rest attrmap (identified d a pl nm)) as (H1 & H2 & H3).
  pose proof (copyAttributes_rest attrmap
    (identified (copyAttributes attrmap (identified d a pl nm)) a pl nm)) as (H1' & H2' & H3').
  apply ResourceData_eq; [by rewrite H1'|by rewrite H2'|by rewrite H3'|].
  apply map_eq; intros k.
  rewrite copyAttributes_state, (copyAttributes_state attrmap (identified d a pl nm)).
  rewrite (identified_lookup_key (copyAttributes _ _)), copyAttributes_state.
  destruct (SNSPlatformAppAttributeMap !! k) as [oKey|] eqn:Hk.
  - destruct (attrmap !! oKey); [done|]. rewrite identified_lookup_key.
    by repeat case_decide.
  - rewrite identified_lookup_key. by repeat case_decide.
Qed.

(** X3. Read is idempotent: a second Read that gets the same answer from
    the service as the first one leaves the resource data as the first Read
    left it, and returns what the first Read returned. *)
Theorem Read_idempotent (d : ResourceData.t) (meta : AWSClient conn) :
  let first := resourceAwsSnsApplicationRead d meta in
  let second := resourceAwsSnsApplicationRead (data first) (client first) in
  (GetPlatformApplicationAttributes (Id d) (snsconn (client first))).1
  = (GetPlatformApplicationAttributes (Id d) (snsconn meta)).1 →
  data second = data first ∧ err second = err first.
Proof.
  cbv zeta. intros Hsame.
  destruct (Read_cases d meta) as [(p & c & HR)|(a & pl & nm & HP & E & HS & HR)].
  { by rewrite HR; cbn [data client]; rewrite HR. }
  rewrite HR in Hsame |- *. cbv zeta in *.
  destruct (GetPlatformApplicationAttributes (Id d) (snsconn meta)) as [[e|attrmap] c];
    cbn [fst snd data client err send snsconn] in *.
  - rewrite (Read_parsed (identified d a pl nm) _ a pl nm HP E). cbv zeta.
    cbn [snsconn send]. rewrite HS, Hsame. cbn [data err]. by rewrite identified_twice.
  - assert (Id (copyAttributes attrmap (identified d a pl nm)) = Id d) as Hid.
    { unfold Id. by destruct (copyAttributes_rest attrmap (identified d a pl nm)) as (-> & _). }
    rewrite (Read_parsed (copyAttributes attrmap (identified d a pl nm)) _ a pl nm)
      by (by rewrite ?Hid).
    cbv zeta. cbn [snsconn send]. rewrite HS, Hsame. cbn [data err].
    by rewrite copy_identified_twice.
Qed.

End Composition.

Lemma Read_idempotent_witness :
  let first := resourceAwsSnsApplicationRead Scenario.imported FakeSNS.holding in
  let second := resourceAwsSnsApplicationRead (data first) (client first) in
  data second = data first ∧ err second = err first.
Proof. apply (Read_idempotent Scenario.imported FakeSNS.holding). reflexivity. Defined.

(** ** The requests a handler sends, by the way it ends *)

Section Traces.
Context {conn : Type} `{!SNSAPI conn}.
Implicit Types (d : ResourceData.t) (meta : AWSClient conn).

(** The attribute map of the update request does not depend on the
    identity. *)
Lemma updateAttributes_SetId d (v : string) :
  updateAttributes (SetId v d) = updateAttributes d.
Proof.
  unfold updateAttributes, updateAttributesIn, changedAttributes.
  generalize resourceSchemaKeys. generalize (∅ : gmap string string).
  intros acc keys.
  assert (foldl (changedAttribute (SetId v d)) acc keys
          = foldl (changedAttribute d) acc keys) as ->; [|done].
  revert acc. induction keys as [|k keys IH]; intros acc; [done|].
  cbn [foldl]. by rewrite IH.
Qed.

Lemma Read_success d meta :
  err (resourceAwsSnsApplicationRead d meta) = None →
  ∃ (a : arn.ARN) (pl nm : string),
    arn.Parse (Id d) = (a, None)
    ∧ GoStrings.Split "/" (arn.Resource a) = ["app"; pl; nm]
    ∧ state (data (resourceAwsSnsApplicationRead d meta)) !! "arn" = Some (Id d)
    ∧ state (data (resourceAwsSnsApplicationRead d meta)) !! "name" = Some nm
    ∧ state (data (resourceAwsSnsApplicationRead d meta)) !! "platform" = Some pl.
Proof.
  destruct (Read_cases d meta) as [(p & c & ->)|(a & pl & nm & HP & E & HS & ->)];
    [done|]. cbv zeta.
  destruct (GetPlatformApplicationAttributes _ _).1 as [e|attrmap]; cbn [err data];
    [done|]. intros _. exists a, pl, nm.
  rewrite !copyAttributes_state, !AttributeMap_not_identity
    by (rewrite !elem_of_cons; auto).
  destruct (identified_lookup d a pl nm) as (Hpl & Hnm & Harn).
  by rewrite Hpl, Hnm, Harn, HS.
Qed.

Lemma Update_ends d meta :
  let out := resourceAwsSnsApplicationUpdate d meta in
  let set := SetPlatformApplicationAttributesInput (Id d) (updateAttributes d) in
  match err out with
  | Some (ErrUpdating _) | Some (ErrIDForm _ _) =>
      sent (client out) = (sent meta ++ [set])%list ∧ data out = d
  | Some (ErrRemote _) | None =>
      sent (client out)
      = (sent meta ++ [set; GetPlatformApplicationAttributesInput (Id d)])%list
  | Some _ => False
  end.
Proof.
  cbv zeta. unfold resourceAwsSnsApplicationUpdate. cbv zeta.
  destruct (SetPlatformApplicationAttributes _ _ _) as [[e|] c]; [done|].
  destruct (Read_cases d (send (SetPlatformApplicationAttributesInput (Id d)
              (updateAttributes d)) meta c))
    as [(p & cause & ->)|(a & pl & nm & _ & _ & _ & ->)]; [done|].
  cbv zeta.
  destruct (GetPlatformApplicationAttributes _ _).1 as [e|attrmap];
    cbn [err client sent send]; by rewrite <- app_assoc.
Qed.

(** X4. Whenever Read or Update returns nil, the identity of the resource
    is what it was, it parses, its resource path is [app/PLATFORM/NAME], and
    the local state holds the identity under arn, NAME under name and
    PLATFORM under platform. Whenever Create returns nil, the service
    answered the creation with an identifier, and all of this holds of that
    identifier: it is the identity of the resource, and arn, name and
    platform in the local state come from it. *)
Theorem success_state (d : ResourceData.t) (meta : AWSClient conn) :
  let settled (ident : string) (out : outcome conn) :=
    err out = None →
    Id (data out) = ident
    ∧ ∃ (a : arn.ARN) (pl nm : string),
        arn.Parse ident = (a, None)
        ∧ GoStrings.Split "/" (arn.Resource a) = ["app"; pl; nm]
        ∧ state (data out) !! "arn" = Some ident
        ∧ state (data out) !! "name" = Some nm
        ∧ state (data out) !! "platform" = Some pl in
  settled (Id d) (resourceAwsSnsApplicationRead d meta)
  ∧ settled (Id d) (resourceAwsSnsApplicationUpdate d meta)
  ∧ match (CreatePlatformApplication (Get d "name") (Get d "platform")
             (createAttributes d) (snsconn meta)).1 with
    | inl _ => err (resourceAwsSnsApplicationCreate d meta) ≠ None
    | inr newArn => settled newArn (resourceAwsSnsApplicationCreate d meta)
    end.
Proof.
  cbv zeta.
  assert (∀ d0 meta0,
             err (resourceAwsSnsApplicationRead d0 meta0) = None →
             Id (data (resourceAwsSnsApplicationRead d0 meta0)) = Id d0
             ∧ ∃ (a : arn.ARN) (pl nm : string),
                 arn.Parse (Id d0) = (a, None)
                 ∧ GoStrings.Split "/" (arn.Resource a) = ["app"; pl; nm]
                 ∧ state (data (resourceAwsSnsApplicationRead d0 meta0)) !! "arn"
                   = Some (Id d0)
                 ∧ state (data (resourceAwsSnsApplicationRead d0 meta0)) !! "name"
                   = Some nm
                 ∧ state (data (resourceAwsSnsApplicationRead d0 meta0)) !! "platform"
                   = Some pl) as HRead.
  { intros d0 meta0 Hok. split; [apply Read_id|]. by apply Read_success. }
  assert (∀ d0 meta0,
             err (resourceAwsSnsApplicationUpdate d0 meta0) = None →
             Id (data (resourceAwsSnsApplicationUpdate d0 meta0)) = Id d0
             ∧ ∃ (a : arn.ARN) (pl nm : string),
                 arn.Parse (Id d0) = (a, None)
                 ∧ GoStrings.Split "/" (arn.Resource a) = ["app"; pl; nm]
                 ∧ state (data (resourceAwsSnsApplicationUpdate d0 meta0)) !! "arn"
                   = Some (Id d0)
                 ∧ state (data (resourceAwsSnsApplicationUpdate d0 meta0)) !! "name"
                   = Some nm
                 ∧ state (data (resourceAwsSnsApplicationUpdate d0 meta0)) !! "platform"
                   = Some pl) as HUpdate.
  { intros d0 meta0. unfold resourceAwsSnsApplicationUpdate. cbv zeta.
    destruct (SetPlatformApplicationAttributes _ _ _) as [[e|] c]; [done|].
    apply HRead. }
  split; [apply HRead|]. split; [apply HUpdate|].
  unfold resourceAwsSnsApplicationCreate. cbv zeta.
  destruct (CreatePlatformApplication _ _ _ _) as [[e|newArn] c]; cbn [fst]; [done|].
  apply (HUpdate (SetId newArn d)).
Qed.

(** X5. The requests Update sends tell how it ended. It always sends the
    attribute update first. When it returns an UpdateError or the error of a
    malformed identifier, that was the only request and the resource data is
    untouched, although in the second case the remote update went through;
    when it returns nil or the error of the fetch, exactly one fetch for the
    same identifier followed. It returns no other error. *)
Theorem Update_trace (d : ResourceData.t) (meta : AWSClient conn) :
  let out := resourceAwsSnsApplicationUpdate d meta in
  let set := SetPlatformApplicationAttributesInput (Id d) (updateAttributes d) in
  match err out with
  | Some (ErrUpdating _) | Some (ErrIDForm _ _) =>
      sent (client out) = (sent meta ++ [set])%list ∧ data out = d
  | Some (ErrRemote _) | None =>
      sent (client out)
      = (sent meta ++ [set; GetPlatformApplicationAttributesInput (Id d)])%list
  | Some _ => False
  end.
Proof. apply Update_ends. Qed.

(** What Create returns and keeps, by the answer to the creation. *)
Lemma Create_ends (d : ResourceData.t) (meta : AWSClient conn) :
  let out := resourceAwsSnsApplicationCreate d meta in
  match (CreatePlatformApplication (Get d "name") (Get d "platform")
           (createAttributes d) (snsconn meta)).1 with
  | inl e => err out = Some (ErrCreating e)
  | inr newArn =>
      match err out with
      | Some (ErrCreating _) | Some (ErrPrincipalNonEmpty _)
      | Some (ErrPrincipalRequired _) => False
      | _ => True
      end
  end.
Proof.
  cbv zeta. unfold resourceAwsSnsApplicationCreate. cbv zeta.
  destruct (CreatePlatformApplication _ _ _ _) as [[e|newArn] c]; cbn [fst]; [done|].
  pose proof (Update_ends (SetId newArn d)
    (send (CreatePlatformApplicationInput (Get d "name") (Get d "platform")
             (createAttributes d)) meta c)) as Hends.
  cbv zeta in Hends.
  by destruct (err (resourceAwsSnsApplicationUpdate _ _)) as [[| | | | |]|].
Qed.

(** X6. The requests Create sends tell how it ended. When the service
    refuses the creation, Create returns a CreateError with the message of
    the service, the creation request was the only one, and the resource
    data is untouched. When the service answers with an identifier, Create
    returns no CreateError, and the identifier is stored as the identity: with
    an UpdateError or the error of a malformed identifier, the attribute
    update for that identifier was the last request; with nil or the error of
    the fetch, the attribute update and one fetch for that identifier
    followed. Create sends no other request. *)
Theorem Create_trace (d : ResourceData.t) (meta : AWSClient conn) :
  let out := resourceAwsSnsApplicationCreate d meta in
  let create :=
    CreatePlatformApplicationInput (Get d "name") (Get d "platform") (createAttributes d) in
  match (CreatePlatformApplication (Get d "name") (Get d "platform")
           (createAttributes d) (snsconn meta)).1 with
  | inl e =>
      err out = Some (ErrCreating e)
      ∧ sent (client out) = (sent meta ++ [create])%list
      ∧ data out = d
  | inr newArn =>
      let set := SetPlatformApplicationAttributesInput newArn (updateAttributes d) in
      match err out with
      | Some (ErrUpdating _) | Some (ErrIDForm _ _) =>
          sent (client out) = (sent meta ++ [create; set])%list
          ∧ data out = SetId newArn d
      | Some (ErrRemote _) | None =>
          sent (client out)
          = (sent meta ++ [create; set; GetPlatformApplicationAttributesInput newArn])%list
          ∧ Id (data out) = newArn
      | Some _ => False
      end
  end.
Proof.
  cbv zeta. unfold resourceAwsSnsApplicationCreate. cbv zeta.
  destruct (CreatePlatformApplication _ _ _ _) as [[e|newArn] c]; cbn [fst]; [done|].
  pose proof (Update_ends (SetId newArn d)
    (send (CreatePlatformApplicationInput (Get d "name") (Get d "platform")
             (createAttributes d)) meta c)) as Hends.
  pose proof (Update_id (SetId newArn d)
    (send (CreatePlatformApplicationInput (Get d "name") (Get d "platform")
             (createAttributes d)) meta c)) as Hid.
  cbv zeta in Hends. rewrite updateAttributes_SetId in Hends.
  change (Id (SetId newArn d)) with newArn in *.
  destruct (err (resourceAwsSnsApplicationUpdate _ _)) as [[| | | | |]|];
    try done; cbn [send sent] in Hends; rewrite <- app_assoc in Hends;
    by destruct_and?.
Qed.

End Traces.

Example Create_trace_failure :
  let d := ResourceData.mk "" (<["name" := ""]> Scenario.gcmConfig) ∅ ∅ in
  resourceAwsSnsApplicationCreate d FakeSNS.fresh
  = mkOutcome (Some (ErrCreating FakeSNS.invalidName)) d
      (mkAWSClient ∅
         [CreatePlatformApplicationInput "" "GCM" {[ "PlatformCredential" := "cred" ]}]).
Proof. vm_compute. repeat split. Qed.

(** ** Edge cases of the update request *)

Section UpdateEdges.
Context {conn : Type} `{!SNSAPI conn}.
Implicit Types (d : ResourceData.t) (meta : AWSClient conn).

Lemma schemaKeys_credential : "platform_credential" ∈ resourceSchemaKeys.
Proof. apply (bool_decide_unpack _). by vm_compute. Qed.

Lemma schemaKeys_principal : "platform_principal" ∈ resourceSchemaKeys.
Proof. apply (bool_decide_unpack _). by vm_compute. Qed.

(** The three kinds of remote names: the credential, a mapped name with its
    local key, and the rest. *)
Lemma remote_name_cases (r : string) :
  r = "PlatformCredential"
  ∨ (∃ k, SNSPlatformAppAttributeMap !! k = Some r ∧ k ∈ resourceSchemaKeys)
  ∨ (r ≠ "PlatformCredential" ∧ ∀ k, SNSPlatformAppAttributeMap !! k ≠ Some r).
Proof.
  destruct (decide (r = "PlatformCredential")) as [->|Hne]; [by left|]. right.
  destruct (decide (r ∈ SNSPlatformAppAttributeEntries.*2)) as [Hr|Hr].
  - left. apply list_elem_of_fmap in Hr as ([k r'] & -> & Hk%AttributeMap_lookup).
    exists k. split; [done|]. by eapply schemaKeys_mapped.
  - right. split; [done|]. intros k Hk%AttributeMap_lookup.
    apply Hr, list_elem_of_fmap. by exists (k, r).
Qed.

Lemma HasChange_true d (k : string) :
  HasChange d k = true ↔ (GetChange d k).1 ≠ (GetChange d k).2.
Proof.
  unfold HasChange. destruct (GetChange d k) as [o n]. cbn [fst snd].
  destruct (String.eqb_spec o n); cbn [negb]; split; done.
Qed.

Lemma update_lookup_mapped d (k r : string) :
  SNSPlatformAppAttributeMap !! k = Some r → HasChange d k = true →
  updateAttributes d !! r = Some (GetChange d k).2.
Proof.
  intros Hk Hc. unfold updateAttributes.
  destruct (decide (k = "platform_principal")) as [->|Hne].
  - assert (r = "PlatformPrincipal") as -> by (vm_compute in Hk; congruence).
    rewrite updateAttributes_principal, Hc by apply schemaKeys_principal.
    destruct (HasChange d "platform_credential"); [|done].
    destruct (GetOk d "platform_principal") as [v [|]] eqn:Hok; [|done].
    by rewrite (GetOk_GetChange d _ v Hok).
  - rewrite (updateAttributes_mapped d _ k r), Hc; try done.
    by eapply schemaKeys_mapped.
Qed.

(** X7. When no field of the schema changed, Update still sends its
    request, and the attribute map in it is empty. *)
Theorem Update_no_change (d : ResourceData.t) (meta : AWSClient conn) :
  (∀ k : string, k ∈ resourceSchemaKeys → HasChange d k = false) →
  updateAttributes d = ∅
  ∧ ∃ rest,
      sent (client (resourceAwsSnsApplicationUpdate d meta))
      = (sent meta ++ SetPlatformApplicationAttributesInput (Id d) ∅ :: rest)%list.
Proof.
  intros Hsame.
  assert (updateAttributes d = ∅) as Hempty.
  { apply map_eq; intros r. rewrite lookup_empty. unfold updateAttributes.
    destruct (remote_name_cases r) as [->|[(k & Hk & Hin)|(Hne & Hno)]].
    - by rewrite updateAttributes_credential, (Hsame _ schemaKeys_credential).
    - destruct (decide (k = "platform_principal")) as [->|Hpr].
      + assert (r = "PlatformPrincipal") as -> by (vm_compute in Hk; congruence).
        rewrite updateAttributes_principal by done.
        by rewrite (Hsame _ schemaKeys_credential), (Hsame _ schemaKeys_principal).
      + by rewrite (updateAttributes_mapped d _ k r), (Hsame k).
    - by apply updateAttributes_unmapped. }
  split; [done|]. rewrite <- Hempty. apply Update_sent.
Qed.

(** X8. For a resource without prior values (a new one), the update
    request that follows the creation carries every mapped optional field
    that is configured with a non-empty value, under its remote name, and
    the credential when it is not empty; a mapped field other than the
    principal that is empty or not configured is left out. *)
Theorem Update_new_resource (d : ResourceData.t) :
  prior d = ∅ →
  (∀ k attrKey : string,
      SNSPlatformAppAttributeMap !! k = Some attrKey → Get d k ≠ "" →
      updateAttributes d !! attrKey = Some (Get d k))
  ∧ (Get d "platform_credential" ≠ "" →
     updateAttributes d !! "PlatformCredential" = Some (Get d "platform_credential"))
  ∧ (∀ k attrKey : string,
        SNSPlatformAppAttributeMap !! k = Some attrKey → k ≠ "platform_principal" →
        Get d k = "" → updateAttributes d !! attrKey = None).
Proof.
  intros Hnew.
  assert (∀ k, GetChange d k = ("", Get d k)) as Hchange.
  { intros k. unfold GetChange, Get. by rewrite Hnew, lookup_empty. }
  assert (∀ k, HasChange d k = negb (String.eqb "" (Get d k))) as Hhas.
  { intros k. unfold HasChange. by rewrite Hchange. }
  assert (∀ k, Get d k ≠ "" → HasChange d k = true) as Hset.
  { intros k Hk. rewrite Hhas. by destruct (String.eqb_spec "" (Get d k)). }
  split; [|split].
  - intros k attrKey Hk Hv.
    rewrite (update_lookup_mapped d k attrKey Hk (Hset k Hv)). by rewrite Hchange.
  - intros Hv. unfold updateAttributes.
    by rewrite updateAttributes_credential, (Hset _ Hv).
  - intros k attrKey Hk Hne Hv. unfold updateAttributes.
    rewrite (updateAttributes_mapped d _ k attrKey), Hhas, Hv; try done.
    by eapply schemaKeys_mapped.
Qed.

(** X9. Taking a mapped optional field out of the configuration does not
    leave its attribute out of the request: when the field had a non-empty
    value before and is no longer configured, Update sends the empty string
    under its remote name. *)
Theorem Update_removed_field (d : ResourceData.t) (k attrKey : string) :
  SNSPlatformAppAttributeMap !! k = Some attrKey →
  config d !! k = None →
  (GetChange d k).1 ≠ "" →
  updateAttributes d !! attrKey = Some "".
Proof.
  intros Hk Hgone Hold.
  assert ((GetChange d k).2 = "") as Hnew by (unfold GetChange; by rewrite Hgone).
  rewrite (update_lookup_mapped d k attrKey Hk); [by rewrite Hnew|].
  apply HasChange_true. by rewrite Hnew.
Qed.

End UpdateEdges.

Lemma Update_no_change_witness :
  updateAttributes Scenario.unchanged = ∅
  ∧ ∃ rest,
      sent (client (resourceAwsSnsApplicationUpdate Scenario.unchanged FakeSNS.holding))
      = ([] ++ SetPlatformApplicationAttributesInput FakeSNS.gcmArn ∅ :: rest)%list.
Proof.
  apply (Update_no_change Scenario.unchanged FakeSNS.holding).
  intros k Hk. unfold resourceSchemaKeys, resourceSchemaEntries in Hk.
  cbn [fmap list_fmap fst] in Hk. rewrite !elem_of_cons, elem_of_nil in Hk.
  repeat destruct Hk as [Hk|Hk]; try done; subst k; by vm_compute.
Defined.

Lemma Update_new_resource_witness :
  updateAttributes Scenario.apnsNew !! "EventDeliveryFailure"
  = Some "arn:aws:sns:us-east-1:123456789012:failures"
  ∧ updateAttributes Scenario.apnsNew !! "PlatformPrincipal" = Some "key"
  ∧ updateAttributes Scenario.apnsNew !! "PlatformCredential" = Some "cred"
  ∧ updateAttributes Scenario.apnsNew !! "SuccessFeedbackSampleRate" = None.
Proof.
  destruct (Update_new_resource Scenario.apnsNew eq_refl) as (Hset & Hcred & Hunset).
  split; [|split; [|split]].
  - by apply (Hset "event_delivery_failure_topic_arn").
  - by apply (Hset "platform_principal").
  - by apply Hcred.
  - by apply (Hunset "success_feedback_sample_rate").
Defined.

Lemma Update_removed_field_witness :
  updateAttributes Scenario.rateRemoved !! "SuccessFeedbackSampleRate" = Some "".
Proof.
  by apply (Update_removed_field Scenario.rateRemoved "success_feedback_sample_rate").
Defined.


(** ** Create: main result *)

Section CreateResults.
Context {conn : Type} `{!SNSAPI conn}.

Lemma send_send (r1 r2 : request) (meta : AWSClient conn) (c c' : conn) :
  send r2 (send r1 meta c) c' = mkAWSClient c' (sent meta ++ [r1; r2]).
Proof. unfold send. cbn [sent]. by rewrite <- app_assoc. Qed.

(** For a resource without prior values, a mapped field with a non-empty
    value is in the update request. *)
Lemma new_resource_sent (d : ResourceData.t) (k attrKey : string) :
  prior d = ∅ →
  SNSPlatformAppAttributeMap !! k = Some attrKey → Get d k ≠ "" →
  updateAttributes d !! attrKey = Some (Get d k).
Proof.
  intros Hnew Hk Hv.
  assert (GetChange d k = ("", Get d k)) as Hchange.
  { unfold GetChange, Get. by rewrite Hnew, lookup_empty. }
  rewrite (update_lookup_mapped d k attrKey Hk); [by rewrite Hchange|].
  apply HasChange_true. rewrite Hchange. cbn [fst snd]. congruence.
Qed.

(** C7. For every creation config, the attribute map of the creation
    request holds PlatformCredential always, PlatformPrincipal exactly when a
    principal was supplied, and nothing else. When the remote call fails,
    Create fails with a CreateError that carries the remote message, sends
    nothing more and leaves the resource data as it was. When it succeeds,
    Create returns no CreateError, the identifier the service returned is the
    identity of the resource, and Create goes on as Update does: the next
    request is the attribute update for the returned identifier with the
    attribute map of Update, which for a new resource holds every mapped
    optional field supplied with a non-empty value; when that call fails
    Create returns the UpdateError and only the identity has changed, and
    when it succeeds the outcome is that of Read, so that on nil the local
    state holds the returned identifier under arn. *)
Theorem Create_request (d : ResourceData.t) (meta : AWSClient conn) :
  let attributes := createAttributes d in
  let create :=
    CreatePlatformApplicationInput (Get d "name") (Get d "platform") attributes in
  let answer :=
    CreatePlatformApplication (Get d "name") (Get d "platform") attributes (snsconn meta) in
  let out := resourceAwsSnsApplicationCreate d meta in
  attributes !! "PlatformCredential" = Some (Get d "platform_credential")
  ∧ attributes !! "PlatformPrincipal"
    = match GetOk d "platform_principal" with
      | (v, true) => Some v
      | (_, false) => None
      end
  ∧ (∀ r : string,
        is_Some (attributes !! r) → r = "PlatformCredential" ∨ r = "PlatformPrincipal")
  ∧ match answer.1 with
    | inl e =>
        out = mkOutcome (Some (ErrCreating e)) d
                (mkAWSClient answer.2 (sent meta ++ [create]))
        ∧ CreateError (ErrCreating e)
        ∧ Error (ErrCreating e) = "Error creating SNS application: " +:+ e
    | inr newArn =>
        let set := SetPlatformApplicationAttributesInput newArn (updateAttributes d) in
        let updated :=
          SetPlatformApplicationAttributes newArn (updateAttributes d) answer.2 in
        let meta' := mkAWSClient updated.2 (sent meta ++ [create; set]) in
        Id (data out) = newArn
        ∧ (∀ e : error, err out = Some e → ¬ CreateError e)
        ∧ (∃ rest, sent (client out) = (sent meta ++ create :: set :: rest)%list)
        ∧ (prior d = ∅ →
           ∀ k attrKey : string,
             SNSPlatformAppAttributeMap !! k = Some attrKey → Get d k ≠ "" →
             updateAttributes d !! attrKey = Some (Get d k))
        ∧ match updated.1 with
          | Some e =>
              out = mkOutcome (Some (ErrUpdating e)) (SetId newArn d) meta'
          | None =>
              out = resourceAwsSnsApplicationRead (SetId newArn d) meta'
              ∧ (err out = None → state (data out) !! "arn" = Some newArn)
          end
    end.
Proof.
  cbv zeta. split; [|split; [|split]].
  - unfold createAttributes.
    destruct (GetOk d "platform_principal") as [v [|]]; by simplify_map_eq.
  - unfold createAttributes.
    destruct (GetOk d "platform_principal") as [v [|]]; by simplify_map_eq.
  - intros r [x Hx]. unfold createAttributes in Hx.
    destruct (decide (r = "PlatformCredential")) as [->|?]; [by left|].
    destruct (decide (r = "PlatformPrincipal")) as [->|?]; [by right|].
    destruct (GetOk d "platform_principal") as [v [|]]; by simplify_map_eq.
  - pose proof (Create_ends d meta) as Hends. cbv zeta in Hends.
    unfold resourceAwsSnsApplicationCreate in *. cbv zeta in *.
    destruct (CreatePlatformApplication _ _ _ _) as [[e|newArn] c]; cbn [fst snd] in *;
      [done|].
    set (meta1 := send _ meta c) in *.
    split; [apply (Update_id (SetId newArn d))|].
    split.
    { intros e He. rewrite He in Hends. destruct e; cbn; tauto. }
    split.
    { destruct (Update_sent (SetId newArn d) meta1) as [rest Hrest].
      exists rest. rewrite Hrest, updateAttributes_SetId. subst meta1.
      cbn [sent send]. by rewrite <- app_assoc. }
    split; [intros Hnew k attrKey; by apply new_resource_sent|].
    unfold resourceAwsSnsApplicationUpdate. cbv zeta.
    rewrite updateAttributes_SetId. change (Id (SetId newArn d)) with newArn.
    subst meta1. cbn [snsconn send sent].
    destruct (SetPlatformApplicationAttributes _ _ _) as [[e|] c']; cbn [fst snd];
      rewrite send_send; [done|].
    split; [done|]. intros Hok.
    by destruct (Read_success _ _ Hok) as (a & pl & nm & _ & _ & -> & _).
Qed.

End CreateResults.

(** A new APNS application with a principal and a failure topic, on the test
    double: both secrets are in the creation request, the identifier the
    service minted is the identity, and the failure topic is in the update
    request. *)
Lemma Create_request_witness :
  createAttributes Scenario.apnsNew !! "PlatformCredential" = Some "cred"
  ∧ createAttributes Scenario.apnsNew !! "PlatformPrincipal" = Some "key"
  ∧ Id (data (resourceAwsSnsApplicationCreate Scenario.apnsNew FakeSNS.fresh))
    = "arn:aws:sns:us-east-1:123456789012:app/APNS/app1"
  ∧ updateAttributes Scenario.apnsNew !! "EventDeliveryFailure"
    = Some "arn:aws:sns:us-east-1:123456789012:failures".
Proof.
  pose proof (Create_request Scenario.apnsNew FakeSNS.fresh) as H. cbv zeta in H.
  destruct H as (H1 & H2 & _ & H4).
  split; [exact H1|]. split; [exact H2|].
  match type of H4 with
  | match ?x with inl _ => _ | inr _ => _ end =>
      change x
        with (@inr string string "arn:aws:sns:us-east-1:123456789012:app/APNS/app1")
        in H4
  end.
  cbv beta iota in H4. destruct H4 as (Hid & _ & _ & Hnew & _).
  split; [exact Hid|].
  exact (Hnew eq_refl "event_delivery_failure_topic_arn" "EventDeliveryFailure"
           eq_refl ltac:(discriminate)).
Defined.

Example Create_apns_trace :
  sent (client (resourceAwsSnsApplicationCreate Scenario.apnsNew FakeSNS.fresh))
  = [ CreatePlatformApplicationInput "app1" "APNS"
        (list_to_map [("PlatformCredential", "cred"); ("PlatformPrincipal", "key")]);
      SetPlatformApplicationAttributesInput
        "arn:aws:sns:us-east-1:123456789012:app/APNS/app1"
        (list_to_map [("EventDeliveryFailure", "arn:aws:sns:us-east-1:123456789012:failures");
                      ("PlatformCredential", "cred"); ("PlatformPrincipal", "key")]);
      GetPlatformApplicationAttributesInput
        "arn:aws:sns:us-east-1:123456789012:app/APNS/app1" ].
Proof. vm_compute. reflexivity. Qed.

(** ** Validation before creation, and the state function *)

Section ValidatedPlans.
Context {conn : Type} `{!SNSAPI conn}.

(** X10. When the plan-time check passes for a diff whose platform is in
    the principal-required set, and the resource data Create gets answers
    for platform and platform_principal as that diff did, then the principal
    is present and not empty, and the creation request holds it under
    PlatformPrincipal. *)
Theorem validated_principal_sent (diff : ResourceDiff.t) (d : ResourceData.t) :
  ResourceDiff.Get diff "platform" = Get d "platform" →
  ResourceDiff.GetOk diff "platform_principal" = GetOk d "platform_principal" →
  CustomizeDiff diff = None →
  requiresPlatformPrincipal (Get d "platform") = true →
  ∃ v : string,
    v ≠ ""
    ∧ GetOk d "platform_principal" = (v, true)
    ∧ createAttributes d !! "PlatformPrincipal" = Some v.
Proof.
  unfold CustomizeDiff, validateAwsSnsPlatformApplication.
  intros -> -> Hvalid Hreq. rewrite Hreq in Hvalid. unfold createAttributes.
  destruct (GetOk d "platform_principal") as [v [|]]; [|done].
  exists v. split; [by destruct v|]. split; [done|]. apply lookup_insert_eq.
Qed.

End ValidatedPlans.

Lemma validated_principal_sent_witness :
  ∃ v : string,
    v ≠ ""
    ∧ GetOk Scenario.apnsNew "platform_principal" = (v, true)
    ∧ createAttributes Scenario.apnsNew !! "PlatformPrincipal" = Some v.
Proof.
  apply (validated_principal_sent (ResourceDiff.ofConfig Scenario.apnsNewConfig)
           Scenario.apnsNew); reflexivity.
Defined.

Section HashFacts.
Import Hash.

Lemma hex_cons (b : ascii) (bytes : list ascii) :
  hex (b :: bytes)
  = String (hexDigit (N_of_ascii b / 16))
      (String (hexDigit (N_of_ascii b mod 16)) (hex bytes)).
Proof. reflexivity. Qed.

Lemma unhex_hexByte (b : ascii) :
  unhexByte (hexDigit (N_of_ascii b / 16)) (hexDigit (N_of_ascii b mod 16)) = b.
Proof. destruct b as [[] [] [] [] [] [] [] []]; reflexivity. Qed.

Lemma hexByte_lower (b : ascii) :
  isLowerHex (hexDigit (N_of_ascii b / 16)) = true
  ∧ isLowerHex (hexDigit (N_of_ascii b mod 16)) = true.
Proof. destruct b as [[] [] [] [] [] [] [] []]; split; reflexivity. Qed.

(** Reading the digits back gives the bytes. *)
Lemma unhex_hex (bytes : list ascii) : unhex (hex bytes) = bytes.
Proof.
  induction bytes as [|b bytes IH]; [done|].
  rewrite hex_cons. cbn [unhex]. by rewrite unhex_hexByte, IH.
Qed.

Lemma hex_length (bytes : list ascii) : String.length (hex bytes) = 2 * length bytes.
Proof.
  induction bytes as [|b bytes IH]; [done|].
  rewrite hex_cons. cbn [String.length length]. rewrite IH. lia.
Qed.

Lemma hex_lower (bytes : list ascii) : allLowerHex (hex bytes) = true.
Proof.
  induction bytes as [|b bytes IH]; [done|].
  rewrite hex_cons. cbn [allLowerHex].
  destruct (hexByte_lower b) as [-> ->]. by rewrite IH.
Qed.

(** X11. For a digest function that gives thirty-two bytes, hashSum gives
    sixty-four characters, all of them digits of [0-9a-f]; the digest can be
    read back from it, so two contents have the same hashSum exactly when
    they have the same digest. *)
Theorem hashSum_hex (Sum256 : string → list ascii) :
  (∀ contents, length (Sum256 contents) = 32) →
  ∀ contents : string,
    String.length (hashSum Sum256 contents) = 64
    ∧ allLowerHex (hashSum Sum256 contents) = true
    ∧ unhex (hashSum Sum256 contents) = Sum256 contents
    ∧ ∀ other : string,
        hashSum Sum256 contents = hashSum Sum256 other ↔
        Sum256 contents = Sum256 other.
Proof.
  intros Hlen contents. unfold hashSum.
  split; [by rewrite hex_length, Hlen|]. split; [apply hex_lower|].
  split; [apply unhex_hex|]. intros other. split; [|by intros ->].
  intros Heq. by rewrite <- (unhex_hex (Sum256 contents)), Heq, unhex_hex.
Qed.

End HashFacts.

Lemma hashSum_hex_witness :
  String.length (Hash.hashSum Hash.firstByteDigest "cred") = 64
  ∧ Hash.allLowerHex (Hash.hashSum Hash.firstByteDigest "cred") = true
  ∧ Hash.unhex (Hash.hashSum Hash.firstByteDigest "cred") = Hash.firstByteDigest "cred"
  ∧ ∀ other : string,
      Hash.hashSum Hash.firstByteDigest "cred" = Hash.hashSum Hash.firstByteDigest other ↔
      Hash.firstByteDigest "cred" = Hash.firstByteDigest other.
Proof.
  apply (hashSum_hex Hash.firstByteDigest). intros [|a s]; reflexivity.
Defined.

Example hashSum_example :
  Hash.hashSum Hash.firstByteDigest "cred"
  = "6300000000000000000000000000000000000000000000000000000000000000".
Proof. reflexivity. Qed.

(** ** The secret fields on Read *)

Section ReadSecrets.
Context {conn : Type} `{!SNSAPI conn}.

(** X12. Read never refreshes the credential: whatever the service
    answers, platform_credential holds in the local state what it held
    before. The principal is refreshed: when the fetched set holds
    PlatformPrincipal, Read stores that value as it came under
    platform_principal, and otherwise leaves the field as it was. *)
Theorem Read_secret_fields (d : ResourceData.t) (meta : AWSClient conn) :
  let out := resourceAwsSnsApplicationRead d meta in
  state (data out) !! "platform_credential" = state d !! "platform_credential"
  ∧ ∀ (attrmap : gmap string string),
      err out = None →
      (GetPlatformApplicationAttributes (Id d) (snsconn meta)).1 = inr attrmap →
      state (data out) !! "platform_principal"
      = match attrmap !! "PlatformPrincipal" with
        | Some v => Some v
        | None => state d !! "platform_principal"
        end.
Proof.
  cbv zeta.
  destruct (Read_cases d meta) as [(p & c & ->)|(a & pl & nm & _ & _ & _ & ->)];
    [done|]. cbv zeta.
  destruct (GetPlatformApplicationAttributes _ _).1 as [e|attrmap0]; cbn [data err].
  - split; [|done]. by rewrite identified_lookup_key.
  - split.
    + rewrite copyAttributes_state.
      change (SNSPlatformAppAttributeMap !! "platform_credential") with (@None string).
      by rewrite identified_lookup_key.
    + intros attrmap _ [= <-]. rewrite copyAttributes_state.
      change (SNSPlatformAppAttributeMap !! "platform_principal")
        with (Some "PlatformPrincipal").
      cbv beta iota. destruct (attrmap0 !! "PlatformPrincipal"); [done|].
      by rewrite identified_lookup_key.
Qed.

End ReadSecrets.

Example Read_principal_refreshed :
  let service : AWSClient (gmap string (gmap string string)) :=
    mkAWSClient {[ FakeSNS.gcmArn := {[ "PlatformPrincipal" := "remote" ]} ]} [] in
  let d := ResourceData.mk FakeSNS.gcmArn ∅ ∅
             (list_to_map [("platform_credential", "h1"); ("platform_principal", "h2")]) in
  let out := resourceAwsSnsApplicationRead d service in
  state (data out) !! "platform_credential" = Some "h1"
  ∧ state (data out) !! "platform_principal" = Some "remote".
Proof. vm_compute. repeat split. Qed.
